(** * TaskMaster <-> Jira synchronisation handler

    A shallow embedding of the synchronisation engine of the CC Dev Atlassian
    integration:

    - [handlers/taskmaster-integration-handler.js]
      (class [TaskMasterIntegrationHandler]): the three sync entry points
      [handleTagUpdate], [handleTaskUpdate], [handleJiraIssueUpdate], the
      tag classifier and the Jira -> TaskMaster field mappers;
    - [services/jira-service.js] (class [JiraService]): issue lookup,
      creation and update, and the TaskMaster -> Jira field mappers.

    JavaScript strings are modelled as [string] (ASCII case conversion),
    objects read from [tasks.json] as records, object literals built by the
    code as association lists in insertion order, and asynchronous methods
    as programs over an effect signature ([prog]), interpreted either
    sequentially ([run]) or interleaved at their [await] points
    ([Interleaving]). *)

From Stdlib Require Import String Ascii ZArith List Bool Lia DecimalString.
From stdpp Require Import base option list sorting gmap strings.

Import ListNotations.
Local Open Scope Z_scope.

(** ** JavaScript string primitives *)

Module Js.

(** [s.startsWith(p)] *)
Definition startsWith (s p : string) : bool := String.prefix p s.

(** [s.includes(sub)] *)
Fixpoint includes (s sub : string) : bool :=
  String.prefix sub s ||
  match s with
  | EmptyString => false
  | String _ s' => includes s' sub
  end.

(** [s.split(sep)] for a one-character separator. *)
Fixpoint split (sep : ascii) (s : string) : list string :=
  match s with
  | EmptyString => [EmptyString]
  | String c s' =>
      if Ascii.eqb c sep then EmptyString :: split sep s'
      else match split sep s' with
           | [] => [String c EmptyString]
           | h :: t => String c h :: t
           end
  end.

Definition upper_ascii (c : ascii) : ascii :=
  let n := nat_of_ascii c in
  if (Nat.leb 97 n && Nat.leb n 122)%bool then ascii_of_nat (n - 32) else c.

Definition lower_ascii (c : ascii) : ascii :=
  let n := nat_of_ascii c in
  if (Nat.leb 65 n && Nat.leb n 90)%bool then ascii_of_nat (n + 32) else c.

Fixpoint map_string (f : ascii -> ascii) (s : string) : string :=
  match s with
  | EmptyString => EmptyString
  | String c s' => String (f c) (map_string f s')
  end.

(** [s.toUpperCase()] and [s.toLowerCase()] on ASCII strings. *)
Definition toUpperCase : string -> string := map_string upper_ascii.
Definition toLowerCase : string -> string := map_string lower_ascii.

(** [s] contains the character [c]. *)
Fixpoint has_char (c : ascii) (s : string) : bool :=
  match s with
  | EmptyString => false
  | String d s' => Ascii.eqb d c || has_char c s'
  end.

(** Truthiness of a string: every string but the empty one. *)
Definition truthy (s : string) : bool := negb (String.eqb s "").

(** Truthiness of a property that is absent ([undefined]) or a string. *)
Definition truthy_opt (o : option string) : bool :=
  match o with
  | Some s => truthy s
  | None => false
  end.

(** [a || b] on such properties. *)
Definition or (a b : option string) : option string :=
  if truthy_opt a then a else b.

(** Decimal rendering of an integer, as [String(n)] gives it. *)
Definition show_Z (n : Z) : string := NilZero.string_of_int (Z.to_int n).
Definition show_nat (n : nat) : string := show_Z (Z.of_nat n).

End Js.

(** ** Data model *)

(** A task identifier is a string or an integer in [tasks.json] (integers
    of the size JavaScript prints in plain decimal notation). *)
Inductive task_id :=
| IdNum (n : Z)
| IdStr (s : string).

(** [id.toString()], also the rendering inside a template literal. *)
Definition toString (i : task_id) : string :=
  match i with
  | IdNum n => Js.show_Z n
  | IdStr s => s
  end.

(** Truthiness of an identifier: [0] and [""] are falsy. *)
Definition truthy_id (i : task_id) : bool :=
  match i with
  | IdNum n => negb (n =? 0)
  | IdStr s => Js.truthy s
  end.

Module Task.
(** The properties of a task object that the engine reads or writes; a
    property that is absent is [None].  [extra] stands for every other
    property of the object (name and JSON text), which the engine never
    touches. *)
Record t := mk {
  id : task_id;
  title : option string;
  summary : option string;
  description : option string;
  details : option string;
  status : option string;
  priority : option string;
  type : option string;
  tags : option (list string);
  extra : list (string * string)
}.

Definition set_title (v : string) (x : t) : t :=
  mk (id x) (Some v) (summary x) (description x) (details x) (status x)
     (priority x) (type x) (tags x) (extra x).
Definition set_description (v : string) (x : t) : t :=
  mk (id x) (title x) (summary x) (Some v) (details x) (status x)
     (priority x) (type x) (tags x) (extra x).
Definition set_status (v : string) (x : t) : t :=
  mk (id x) (title x) (summary x) (description x) (details x) (Some v)
     (priority x) (type x) (tags x) (extra x).
Definition set_priority (v : string) (x : t) : t :=
  mk (id x) (title x) (summary x) (description x) (details x) (status x)
     (Some v) (type x) (tags x) (extra x).
Definition set_tags (v : list string) (x : t) : t :=
  mk (id x) (title x) (summary x) (description x) (details x) (status x)
     (priority x) (type x) (Some v) (extra x).
End Task.

Module Issue.
(** [issueData.fields]: [status_name] is [fields.status?.name],
    [priority_name] is [fields.priority?.name], and [taskMasterId] is the
    custom field [fields[customFields.taskMasterId]]. *)
Record fields_t := mkFields {
  summary : option string;
  description : option string;
  status_name : option string;
  priority_name : option string;
  taskMasterId : option task_id
}.

Record t := mk {
  key : string;
  fields : option fields_t
}.
End Issue.

(** ** Tag classifier (taskmaster-integration-handler.js) *)

Definition sync_prefix (tag : string) : bool :=
  Js.startsWith tag "cc-dev:" ||
  Js.startsWith tag "atlassian:" ||
  Js.startsWith tag "jira:".

(** [shouldSyncTask(task)] *)
Definition shouldSyncTask (task : Task.t) : bool :=
  match Task.tags task with
  | None => false
  | Some tags => existsb sync_prefix tags
  end.

(** [filterSyncableTasks(tasks)] *)
Definition filterSyncableTasks (tasks : list Task.t) : list Task.t :=
  List.filter shouldSyncTask tasks.

(** The loop of [extractProjectKeyFromTask]: the first tag that starts with
    [cc-dev:] decides; [parts[1]?.toUpperCase()] is [None] when there is no
    second segment. *)
Fixpoint scan_project_key (tags : list string) : option string :=
  match tags with
  | [] => Some "ADAPT"
  | tag :: rest =>
      if Js.startsWith tag "cc-dev:" then
        match nth_error (Js.split ":" tag) 1 with
        | Some p => Some (Js.toUpperCase p)
        | None => None
        end
      else scan_project_key rest
  end.

(** [extractProjectKeyFromTask(task)]; [None] is the [null] result. *)
Definition extractProjectKeyFromTask (task : Task.t) : option string :=
  match Task.tags task with
  | None => None
  | Some tags => scan_project_key tags
  end.

(** ** Grouping by project *)

(** The object [groups] of [groupTasksByProject]: its keys in insertion
    order, each with the array of tasks pushed under it. *)
Definition groups := list (string * list Task.t).

(** [if (!groups[k]) groups[k] = []; groups[k].push(task)] *)
Fixpoint push_group (k : string) (task : Task.t) (g : groups) : groups :=
  match g with
  | [] => [(k, [task])]
  | (k', ts) :: g' =>
      if String.eqb k k' then (k', ts ++ [task]) :: g'
      else (k', ts) :: push_group k task g'
  end.

Definition group_step (g : groups) (task : Task.t) : groups :=
  match extractProjectKeyFromTask task with
  | Some projectKey =>
      if Js.truthy projectKey then push_group projectKey task g else g
  | None => g
  end.

(** [groupTasksByProject(tasks)] *)
Definition groupTasksByProject (tasks : list Task.t) : groups :=
  fold_left group_step tasks [].

(** [groups[k]] *)
Fixpoint group_of (k : string) (g : groups) : option (list Task.t) :=
  match g with
  | [] => None
  | (k', ts) :: g' => if String.eqb k k' then Some ts else group_of k g'
  end.

(** Task [x] is in the array [groups[k]]. *)
Definition in_group (k : string) (x : Task.t) (g : groups) : Prop :=
  exists ts, group_of k g = Some ts /\ In x ts.

(** Property order of a JavaScript object: keys that are array indices
    (canonical decimal numerals below 2^32 - 1) come first, in ascending
    numeric order, then the other keys in insertion order. *)
Fixpoint digits_value (s : string) (acc : N) : option N :=
  match s with
  | EmptyString => Some acc
  | String c s' =>
      let n := N_of_ascii c in
      if ((48 <=? n) && (n <=? 57))%N
      then digits_value s' (10 * acc + (n - 48))%N
      else None
  end.

Definition array_index (k : string) : option N :=
  match k with
  | EmptyString => None
  | String "0" EmptyString => Some 0%N
  | String "0" _ => None
  | _ => match digits_value k 0%N with
         | Some n => if (n <? 4294967295)%N then Some n else None
         | None => None
         end
  end.

Fixpoint insert_indexed {A} (n : N) (x : A) (l : list (N * A)) : list (N * A) :=
  match l with
  | [] => [(n, x)]
  | (m, y) :: l' =>
      if (n <=? m)%N then (n, x) :: l else (m, y) :: insert_indexed n x l'
  end.

Fixpoint indexed_entries (g : groups) : list (N * (string * list Task.t)) :=
  match g with
  | [] => []
  | e :: g' =>
      match array_index (fst e) with
      | Some n => insert_indexed n e (indexed_entries g')
      | None => indexed_entries g'
      end
  end.

Definition named_entries (g : groups) : groups :=
  List.filter (fun e => negb (bool_decide (is_Some (array_index (fst e))))) g.

(** [Object.entries(groups)] *)
Definition Object_entries (g : groups) : groups :=
  map snd (indexed_entries g) ++ named_entries g.

(** ** Field mappers *)

(** [mapping[k]] on an object literal of string values, for a name [k] that
    is one of the literal's own properties or no property at all.  (The few
    names every object inherits, such as [constructor] or [toString], are
    no status, priority or type names; the model reads them as absent.) *)
Fixpoint literal_get (mapping : list (string * string)) (k : string) : option string :=
  match mapping with
  | [] => None
  | (k', v) :: rest => if String.eqb k k' then Some v else literal_get rest k
  end.

(** [x || d] with a string default. *)
Definition or_default (x : option string) (d : string) : string :=
  match Js.or x (Some d) with
  | Some s => s
  | None => d
  end.

(** [taskStatus?.toLowerCase()] used as a property name: [undefined]
    becomes the name ["undefined"]. *)
Definition lower_key (x : option string) : string :=
  match x with
  | Some s => Js.toLowerCase s
  | None => "undefined"
  end.

(** [mapJiraStatusToTaskStatus] (taskmaster-integration-handler.js) *)
Definition mapJiraStatusToTaskStatus (jiraStatus : string) : string :=
  let mapping :=
    [("To Do", "pending");
     ("In Progress", "in_progress");
     ("Review", "review");
     ("Done", "completed");
     ("Closed", "completed")] in
  or_default (literal_get mapping jiraStatus) "pending".

(** [mapJiraPriorityToTaskPriority] (taskmaster-integration-handler.js) *)
Definition mapJiraPriorityToTaskPriority (jiraPriority : string) : string :=
  let mapping :=
    [("Highest", "highest");
     ("High", "high");
     ("Medium", "medium");
     ("Low", "low");
     ("Lowest", "lowest")] in
  or_default (literal_get mapping jiraPriority) "medium".

(** [mapTaskStatusToJiraStatus] (jira-service.js) *)
Definition mapTaskStatusToJiraStatus (taskStatus : option string) : string :=
  let mapping :=
    [("pending", "To Do");
     ("in_progress", "In Progress");
     ("in-progress", "In Progress");
     ("review", "Review");
     ("done", "Done");
     ("completed", "Done");
     ("cancelled", "Done")] in
  or_default (literal_get mapping (lower_key taskStatus)) "To Do".

(** [mapTaskPriorityToJiraPriority] (jira-service.js) *)
Definition mapTaskPriorityToJiraPriority (taskPriority : option string) : string :=
  let mapping :=
    [("highest", "Highest");
     ("high", "High");
     ("medium", "Medium");
     ("low", "Low");
     ("lowest", "Lowest")] in
  or_default (literal_get mapping (lower_key taskPriority)) "Medium".

(** [mapTaskTypeToIssueType] (jira-service.js) *)
Definition mapTaskTypeToIssueType (taskType : option string) : string :=
  let mapping :=
    [("epic", "Epic");
     ("story", "Story");
     ("task", "Task");
     ("bug", "Bug");
     ("research", "Research")] in
  or_default (literal_get mapping (lower_key taskType)) "Task".

(** Values carried by the argument object of an MCP tool call. *)
Inductive jsval :=
| VUndef
| VStr (s : string)
| VNum (n : Z)
| VStrs (l : list string).

Definition of_opt (o : option string) : jsval :=
  match o with
  | Some s => VStr s
  | None => VUndef
  end.

(** An object literal: property names in insertion order. *)
Definition payload := list (string * jsval).

Fixpoint prop (name : string) (p : payload) : option jsval :=
  match p with
  | [] => None
  | (k, v) :: rest => if String.eqb name k then Some v else prop name rest
  end.

Definition has_key (name : string) (p : payload) : bool :=
  bool_decide (is_Some (prop name p)).

(** [extractProjectKeyFromTags(tags)] (jira-service.js) *)
Fixpoint extractProjectKeyFromTags (tags : list string) : option string :=
  match tags with
  | [] => None
  | tag :: rest =>
      if Js.startsWith tag "cc-dev:" then
        let parts := Js.split ":" tag in
        if (2 <=? length parts)%nat then
          match nth_error parts 1 with
          | Some p => Some (Js.toUpperCase p)
          | None => None
          end
        else extractProjectKeyFromTags rest
      else extractProjectKeyFromTags rest
  end.

(** [mapTaskToJiraFields(taskData, projectKey)] (jira-service.js) *)
Definition mapTaskToJiraFields (taskData : Task.t) (projectKey : string) : payload :=
  [("project_key", VStr projectKey);
   ("summary", of_opt (Js.or (Task.title taskData) (Task.summary taskData)));
   ("description",
     VStr (or_default (Js.or (Task.description taskData) (Task.details taskData)) ""));
   ("issue_type", VStr (mapTaskTypeToIssueType (Task.type taskData)));
   ("priority", VStr (mapTaskPriorityToJiraPriority (Task.priority taskData)));
   ("name", VStrs ["PRIME"]);
   ("dept", VStrs ["DevOps"])].

(** [mapTaskUpdatesToJiraFields(taskData)] (jira-service.js) *)
Definition mapTaskUpdatesToJiraFields (taskData : Task.t) : payload :=
  let fields := [] in
  let fields :=
    if Js.truthy_opt (Js.or (Task.title taskData) (Task.summary taskData))
    then fields ++ [("summary", of_opt (Js.or (Task.title taskData) (Task.summary taskData)))]
    else fields in
  let fields :=
    if Js.truthy_opt (Js.or (Task.description taskData) (Task.details taskData))
    then fields ++ [("description",
                     of_opt (Js.or (Task.description taskData) (Task.details taskData)))]
    else fields in
  let fields :=
    if Js.truthy_opt (Task.priority taskData)
    then fields ++ [("priority", VStr (mapTaskPriorityToJiraPriority (Task.priority taskData)))]
    else fields in
  fields.

(** ** The persisted task store ([.taskmaster/tasks/tasks.json]) *)

Module Store.
(** The value of a tag entry such as [tasksData.master]. *)
Record tag_data := mkTag {
  tasks : option (list Task.t);
  tag_extra : list (string * string)
}.

(** [tasksData.metadata] *)
Record metadata_t := mkMeta {
  updated : option string;
  meta_extra : list (string * string)
}.

(** The parsed file: the [master] tag, a top-level [tasks] array, the
    reserved [metadata] entry, and every other tag by name. *)
Record t := mk {
  master : option tag_data;
  top_tasks : option (list Task.t);
  metadata : option metadata_t;
  other_tags : list (string * tag_data)
}.
End Store.

(** What is on disk at the path of [tasks.json]. *)
Inductive file_state :=
| FileMissing
| FileInvalid (raw : string)
| FileJson (d : Store.t).

(** ** Effects *)

Inductive error :=
| JsError (msg : string)
| TypeError (msg : string)
| Rejected (msg : string).

(** The value an MCP tool call resolves to. *)
Inductive response :=
| RNull
| RIssues (l : list Issue.t)
| RObject (key : option string).

Inductive level := LogInfo | LogWarn | LogError.

Inductive event :=
| TagSynced (tagName : string) (taskCount : nat)
| TagSyncError (tagName : string) (e : error)
| TaskSynced (taskId : task_id) (tagName : string)
| TaskSyncError (taskId : task_id) (e : error)
| JiraSynced (issueKey : string) (taskId : task_id)
| JiraSyncError (issueKey : string) (e : error).

(** The operations a method performs on the handler's own state
    ([syncEnabled], [syncLocks], [emit], the console) and on its
    collaborators (the rate limiter, the MCP client, the file system, the
    clock).  [ApplyRateLimit service] is [await this.applyRateLimit(service)]:
    it updates the token bucket of the service, possibly after a pause, and
    cannot fail.  [ReadTasksFile] is [fs.readFile] of [tasks.json] followed
    by [JSON.parse], [WriteTasksFile d] is [fs.writeFile] of
    [JSON.stringify(d, null, 2)], and [DateNow] is
    [new Date().toISOString()]. *)
Inductive eff : Type -> Type :=
| GetSyncEnabled : eff bool
| LocksHas (k : string) : eff bool
| LocksAdd (k : string) : eff unit
| LocksDelete (k : string) : eff unit
| Console (lvl : level) (msg : string) : eff unit
| Emit (ev : event) : eff unit
| ApplyRateLimit (service : string) : eff unit
| McpInvoke (tool : string) (args : payload) : eff (error + response)
| ReadTasksFile : eff (error + Store.t)
| WriteTasksFile (d : Store.t) : eff (error + unit)
| DateNow : eff string.

(** The operations that are awaited on a collaborator: the points where an
    asynchronous method hands control back to the event loop. *)
Definition is_await {X} (e : eff X) : bool :=
  match e with
  | ApplyRateLimit _ | McpInvoke _ _ | ReadTasksFile | WriteTasksFile _ => true
  | _ => false
  end.

(** A method body: it returns, throws, or performs an operation and goes on
    with its result. *)
Inductive prog (A : Type) : Type :=
| Ret (a : A)
| Throw (e : error)
| Vis {X : Type} (op : eff X) (k : X -> prog A).

Arguments Ret {A} a.
Arguments Throw {A} e.
Arguments Vis {A X} op k.

Fixpoint bind {A B} (p : prog A) (f : A -> prog B) : prog B :=
  match p with
  | Ret a => f a
  | Throw e => Throw e
  | Vis op k => Vis op (fun x => bind (k x) f)
  end.

#[global] Instance prog_ret : MRet prog := @Ret.
#[global] Instance prog_bind : MBind prog := fun A B f p => bind p f.

Definition trigger {X} (op : eff X) : prog X := Vis op Ret.

(** [await] of a call that may reject. *)
Definition await {X} (op : eff (error + X)) : prog X :=
  Vis op (fun r => match r with
                   | inl e => Throw e
                   | inr x => Ret x
                   end).

(** [try { p } catch (error) { h error }] *)
Fixpoint try_catch {A} (p : prog A) (h : error -> prog A) : prog A :=
  match p with
  | Ret a => Ret a
  | Throw e => h e
  | Vis op k => Vis op (fun x => try_catch (k x) h)
  end.

(** [try { p } finally { f }]: [f] runs on every way out of [p]. *)
Fixpoint try_finally {A} (p : prog A) (f : prog unit) : prog A :=
  match p with
  | Ret a => bind f (fun _ => Ret a)
  | Throw e => bind f (fun _ => Throw e)
  | Vis op k => Vis op (fun x => try_finally (k x) f)
  end.

(** [for (const x of l) { body x }] *)
Fixpoint for_each {A} (l : list A) (body : A -> prog unit) : prog unit :=
  match l with
  | [] => Ret tt
  | x :: l' => bind (body x) (fun _ => for_each l' body)
  end.

Definition show_error (e : error) : string :=
  match e with
  | JsError m => "Error: " +:+ m
  | TypeError m => "TypeError: " +:+ m
  | Rejected m => m
  end.

(** [console.log], [console.warn] and [console.error] (the messages are
    kept without their leading pictograph). *)
Definition log (msg : string) : prog unit := trigger (Console LogInfo msg).
Definition warn (msg : string) : prog unit := trigger (Console LogWarn msg).
Definition log_error (msg : string) (e : error) : prog unit :=
  trigger (Console LogError (msg +:+ " " +:+ show_error e)).

(** ** JiraService (services/jira-service.js) *)

(** [config.projectTemplates.ccDev.customFields.taskMasterId]
    (config/integration-config.js) *)
Definition taskMasterIdField : string := "customfield_10032".

Definition dquote : string := String (ascii_of_nat 34) EmptyString.

Definition show_tags (tags : option (list string)) : string :=
  match tags with
  | Some l => String.concat "," l
  | None => "undefined"
  end.

Definition show_key (k : option string) : string :=
  match k with
  | Some s => s
  | None => "undefined"
  end.

(** [findJiraIssueForTask(taskId)]: every failure is logged and turned into
    [null]. *)
Definition findJiraIssueForTask (taskId : task_id) : prog (option Issue.t) :=
  try_catch
    (trigger (ApplyRateLimit "jira");;
     let jql := "cf[" +:+ taskMasterIdField +:+ "] ~ "
                +:+ dquote +:+ toString taskId +:+ dquote in
     searchResult ← await (McpInvoke "mcp__atlassian__jira_search"
                             [("jql", VStr jql); ("limit", VNum 1)]);
     match searchResult with
     | RIssues (issue :: _) => Ret (Some issue)
     | _ => Ret None
     end)
    (fun error =>
       log_error ("Failed to find Jira issue for task: " +:+ toString taskId) error;;
       Ret None).

(** [createJiraIssueFromTask(taskData)]: the key of the created issue. *)
Definition createJiraIssueFromTask (taskData : Task.t) : prog (option string) :=
  try_catch
    (trigger (ApplyRateLimit "jira");;
     log ("Creating Jira issue from TaskMaster task: " +:+ toString (Task.id taskData));;
     let projectKey := extractProjectKeyFromTags (default [] (Task.tags taskData)) in
     match projectKey with
     | Some projectKey =>
         if Js.truthy projectKey then
           let issueFields := mapTaskToJiraFields taskData projectKey in
           issue ← await (McpInvoke "mcp__atlassian__jira_create_issue" issueFields);
           match issue with
           | RNull => Throw (TypeError "Cannot read properties of null (reading 'key')")
           | RObject key =>
               log ("Created Jira issue: " +:+ show_key key +:+ " from task "
                    +:+ toString (Task.id taskData));;
               Ret key
           | RIssues _ =>
               log ("Created Jira issue: undefined from task "
                    +:+ toString (Task.id taskData));;
               Ret None
           end
         else Throw (JsError ("No project key found in task tags: "
                              +:+ show_tags (Task.tags taskData)))
     | None => Throw (JsError ("No project key found in task tags: "
                               +:+ show_tags (Task.tags taskData)))
     end)
    (fun error =>
       log_error ("Failed to create Jira issue from task: "
                  +:+ toString (Task.id taskData)) error;;
       Throw error).

(** [updateJiraIssueStatus(issueKey, status)]: a failed transition is only
    a warning. *)
Definition updateJiraIssueStatus (issueKey : string) (status : option string) : prog unit :=
  try_catch
    (let jiraStatus := mapTaskStatusToJiraStatus status in
     await (McpInvoke "mcp__atlassian__jira_transition_issue"
              [("issue_key", VStr issueKey); ("transition_name", VStr jiraStatus)]);;
     Ret tt)
    (fun error => warn ("Could not update status for " +:+ issueKey +:+ ": "
                        +:+ show_error error)).

(** [updateJiraIssueFromTask(issueKey, taskData)] *)
Definition updateJiraIssueFromTask (issueKey : string) (taskData : Task.t) : prog unit :=
  try_catch
    (trigger (ApplyRateLimit "jira");;
     log ("Updating Jira issue " +:+ issueKey +:+ " from TaskMaster task "
          +:+ toString (Task.id taskData));;
     let updateFields := mapTaskUpdatesToJiraFields taskData in
     await (McpInvoke "mcp__atlassian__jira_update_issue"
              (("issue_key", VStr issueKey) :: updateFields));;
     (if Js.truthy_opt (Task.status taskData)
      then updateJiraIssueStatus issueKey (Task.status taskData)
      else Ret tt);;
     log ("Updated Jira issue " +:+ issueKey +:+ " from task "
          +:+ toString (Task.id taskData)))
    (fun error =>
       log_error ("Failed to update Jira issue " +:+ issueKey +:+ " from task "
                  +:+ toString (Task.id taskData)) error;;
       Throw error).

(** [extractTaskMasterIdFromJiraIssue(issueData)]:
    [issueData.fields?.[customFieldId] || null] *)
Definition extractTaskMasterIdFromJiraIssue (issueData : Issue.t) : option task_id :=
  match Issue.fields issueData with
  | Some f =>
      match Issue.taskMasterId f with
      | Some i => if truthy_id i then Some i else None
      | None => None
      end
  | None => None
  end.

(** ** TaskMasterIntegrationHandler (handlers/taskmaster-integration-handler.js) *)

Definition some_tag (f : string -> bool) (task : Task.t) : bool :=
  match Task.tags task with
  | Some tags => existsb f tags
  | None => false
  end.

(** [isDocumentationTask(task)] and [isSupportTask(task)], as tested by
    [if]: [task.tags?.some(...)] is falsy without a tags array. *)
Definition isDocumentationTask (task : Task.t) : bool :=
  some_tag (fun tag => Js.includes tag "documentation" || Js.includes tag "docs") task.

Definition isSupportTask (task : Task.t) : bool :=
  some_tag (fun tag => Js.includes tag "support" || Js.includes tag "help") task.

Definition updateBoardsForTag (tagName : string) (tasks : list Task.t) : prog unit :=
  log ("Updating boards for tag: " +:+ tagName).

Definition updateTaskDocumentation (taskData : Task.t) : prog unit :=
  log ("Updating documentation for task: " +:+ toString (Task.id taskData)).

Definition createSupportTicket (taskData : Task.t) : prog unit :=
  log ("Creating support ticket for task: " +:+ toString (Task.id taskData)).

(** The tag that [syncTaskToJira] pushes on the task before a creation
    under an explicit project key. *)
Definition with_project_tag (projectKey : option string) (taskData : Task.t) : Task.t :=
  match projectKey with
  | Some projectKey =>
      if Js.truthy projectKey then
        let tags := default [] (Task.tags taskData) in
        if existsb (fun tag => Js.includes tag (Js.toLowerCase projectKey)) tags
        then Task.set_tags tags taskData
        else Task.set_tags (tags ++ ["cc-dev:" +:+ Js.toLowerCase projectKey]) taskData
      else taskData
  | None => taskData
  end.

(** [syncTaskToJira(taskData, projectKey = null)].  The method mutates
    [taskData.tags] on the creation path; the task as it is left is the
    result. *)
Definition syncTaskToJira (taskData : Task.t) (projectKey : option string) : prog Task.t :=
  existingIssue ← findJiraIssueForTask (Task.id taskData);
  match existingIssue with
  | Some existingIssue =>
      updateJiraIssueFromTask (Issue.key existingIssue) taskData;;
      log ("Updated Jira issue: " +:+ Issue.key existingIssue);;
      Ret taskData
  | None =>
      let taskData := with_project_tag projectKey taskData in
      newIssue ← createJiraIssueFromTask taskData;
      log ("Created Jira issue: " +:+ show_key newIssue);;
      Ret taskData
  end.

(** The body of the loop of [syncProjectTasks]:
    [try { await this.syncTaskToJira(task, projectKey) } catch (error) { ... }] *)
Definition sync_one (projectKey : string) (task : Task.t) : prog unit :=
  try_catch
    (syncTaskToJira task (Some projectKey);; Ret tt)
    (fun error =>
       log_error ("Failed to sync task " +:+ toString (Task.id task)
                  +:+ " to project " +:+ projectKey +:+ ":") error).

(** [syncProjectTasks(projectKey, tasks, tagName)] *)
Definition syncProjectTasks (projectKey : string) (tasks : list Task.t)
    (tagName : string) : prog unit :=
  log ("Syncing " +:+ Js.show_nat (length tasks) +:+ " tasks for project: " +:+ projectKey);;
  for_each tasks (sync_one projectKey).

(** [handleTagUpdate(tagName, tasks)] *)
Definition handleTagUpdate (tagName : string) (tasks : list Task.t) : prog unit :=
  try_finally
    (try_catch
       (syncEnabled ← trigger GetSyncEnabled;
        held ← (if syncEnabled then trigger (LocksHas ("tag:" +:+ tagName)) else Ret false);
        if negb syncEnabled || held then Ret tt
        else
          trigger (LocksAdd ("tag:" +:+ tagName));;
          log ("Processing TaskMaster tag update: " +:+ tagName);;
          let syncableTasks := filterSyncableTasks tasks in
          if (length syncableTasks =? 0)%nat then
            log ("No syncable tasks found for tag: " +:+ tagName)
          else
            let tasksByProject := groupTasksByProject syncableTasks in
            for_each (Object_entries tasksByProject) (fun '(projectKey, projectTasks) =>
              syncProjectTasks projectKey projectTasks tagName);;
            updateBoardsForTag tagName syncableTasks;;
            log ("Completed tag sync: " +:+ tagName +:+ " ("
                 +:+ Js.show_nat (length syncableTasks) +:+ " tasks)");;
            trigger (Emit (TagSynced tagName (length syncableTasks))))
       (fun error =>
          log_error ("Failed to handle tag update: " +:+ tagName) error;;
          trigger (Emit (TagSyncError tagName error))))
    (trigger (LocksDelete ("tag:" +:+ tagName))).

(** [handleTaskUpdate(taskData, tagName = 'master')] *)
Definition handleTaskUpdate (taskData : Task.t) (tagName : option string) : prog unit :=
  let tagName := default "master" tagName in
  let taskId := toString (Task.id taskData) in
  try_finally
    (try_catch
       (syncEnabled ← trigger GetSyncEnabled;
        held ← (if syncEnabled then trigger (LocksHas ("task:" +:+ taskId)) else Ret false);
        if negb syncEnabled || held then Ret tt
        else
          trigger (LocksAdd ("task:" +:+ taskId));;
          log ("Processing TaskMaster task update: " +:+ taskId);;
          if negb (shouldSyncTask taskData) then
            log ("Task " +:+ taskId +:+ " does not meet sync criteria")
          else
            syncTaskToJira taskData None;;
            (if isDocumentationTask taskData
             then updateTaskDocumentation taskData else Ret tt);;
            (if isSupportTask taskData
             then createSupportTicket taskData else Ret tt);;
            log ("Completed task sync: " +:+ taskId);;
            trigger (Emit (TaskSynced (Task.id taskData) tagName)))
       (fun error =>
          log_error ("Failed to handle task update: " +:+ taskId) error;;
          trigger (Emit (TaskSyncError (Task.id taskData) error))))
    (trigger (LocksDelete ("task:" +:+ taskId))).

(** [tasksData.master?.tasks] *)
Definition master_tasks (d : Store.t) : option (list Task.t) :=
  m ← Store.master d; Store.tasks m.

(** [tasksData.master?.tasks || tasksData.tasks || []] (an array is truthy,
    also when it is empty). *)
Definition masterTasks (d : Store.t) : list Task.t :=
  match master_tasks d with
  | Some l => l
  | None => default [] (Store.top_tasks d)
  end.

(** [masterTasks.findIndex(f)]; [None] is the result [-1]. *)
Fixpoint findIndex {A} (f : A -> bool) (l : list A) : option nat :=
  match l with
  | [] => None
  | x :: l' => if f x then Some 0%nat else S <$> findIndex f l'
  end.

(** [masterTasks[i]] is an object of [tasksData]: assigning to its fields
    changes the array that [masterTasks] aliases and nothing else. *)
Definition store_task (i : nat) (task : Task.t) (d : Store.t) : Store.t :=
  match Store.master d with
  | Some m =>
      match Store.tasks m with
      | Some l =>
          Store.mk (Some (Store.mkTag (Some (<[i:=task]> l)) (Store.tag_extra m)))
                   (Store.top_tasks d) (Store.metadata d) (Store.other_tags d)
      | None =>
          Store.mk (Store.master d) (list_insert i task <$> Store.top_tasks d)
                   (Store.metadata d) (Store.other_tags d)
      end
  | None =>
      Store.mk (Store.master d) (list_insert i task <$> Store.top_tasks d)
               (Store.metadata d) (Store.other_tags d)
  end.

(** [tasksData.metadata = tasksData.metadata || {};
     tasksData.metadata.updated = now] *)
Definition touch_metadata (now : string) (d : Store.t) : Store.t :=
  let meta := default (Store.mkMeta None []) (Store.metadata d) in
  Store.mk (Store.master d) (Store.top_tasks d)
           (Some (Store.mkMeta (Some now) (Store.meta_extra meta)))
           (Store.other_tags d).

(** [v !== field] for a string [v] and a property that may be absent. *)
Definition strict_ne (v : string) (field : option string) : bool :=
  match field with
  | Some s => negb (String.eqb v s)
  | None => true
  end.

Definition issue_summary (issueData : Issue.t) : option string :=
  f ← Issue.fields issueData; Issue.summary f.
Definition issue_description (issueData : Issue.t) : option string :=
  f ← Issue.fields issueData; Issue.description f.
Definition issue_status_name (issueData : Issue.t) : option string :=
  f ← Issue.fields issueData; Issue.status_name f.
Definition issue_priority_name (issueData : Issue.t) : option string :=
  f ← Issue.fields issueData; Issue.priority_name f.

(** The four guarded assignments of [updateTaskMasterTask]. *)
Definition merge_title (issueData : Issue.t) (task : Task.t) : Task.t :=
  match issue_summary issueData with
  | Some summary =>
      if Js.truthy summary && strict_ne summary (Task.title task)
      then Task.set_title summary task else task
  | None => task
  end.

Definition merge_description (issueData : Issue.t) (task : Task.t) : Task.t :=
  match issue_description issueData with
  | Some description =>
      if Js.truthy description && strict_ne description (Task.description task)
      then Task.set_description description task else task
  | None => task
  end.

Definition merge_status (issueData : Issue.t) (task : Task.t) : Task.t :=
  match issue_status_name issueData with
  | Some name =>
      if Js.truthy name then
        let mappedStatus := mapJiraStatusToTaskStatus name in
        if strict_ne mappedStatus (Task.status task)
        then Task.set_status mappedStatus task else task
      else task
  | None => task
  end.

Definition merge_priority (issueData : Issue.t) (task : Task.t) : Task.t :=
  match issue_priority_name issueData with
  | Some name =>
      if Js.truthy name then
        let mappedPriority := mapJiraPriorityToTaskPriority name in
        if strict_ne mappedPriority (Task.priority task)
        then Task.set_priority mappedPriority task else task
      else task
  | None => task
  end.

Definition merge_issue (issueData : Issue.t) (task : Task.t) : Task.t :=
  merge_priority issueData
    (merge_status issueData
       (merge_description issueData
          (merge_title issueData task))).

Definition same_id (taskId : task_id) (task : Task.t) : bool :=
  String.eqb (toString (Task.id task)) (toString taskId).

(** [updateTaskMasterTask(taskId, issueData)] *)
Definition updateTaskMasterTask (taskId : task_id) (issueData : Issue.t) : prog unit :=
  try_catch
    (tasksData ← await ReadTasksFile;
     let masterTasks := masterTasks tasksData in
     match findIndex (same_id taskId) masterTasks with
     | None => warn ("TaskMaster task not found: " +:+ toString taskId)
     | Some taskIndex =>
         match masterTasks !! taskIndex with
         | None => Throw (TypeError "Cannot read properties of undefined")
         | Some task =>
             let task := merge_issue issueData task in
             let tasksData := store_task taskIndex task tasksData in
             now ← trigger DateNow;
             let tasksData := touch_metadata now tasksData in
             await (WriteTasksFile tasksData);;
             log ("Updated TaskMaster task " +:+ toString taskId
                  +:+ " from Jira issue " +:+ Issue.key issueData)
         end
     end)
    (fun error =>
       log_error ("Failed to update TaskMaster task " +:+ toString taskId +:+ ":") error;;
       Throw error).

(** [handleJiraIssueUpdate(issueData)] *)
Definition handleJiraIssueUpdate (issueData : Issue.t) : prog unit :=
  let issueKey := Issue.key issueData in
  try_finally
    (try_catch
       (syncEnabled ← trigger GetSyncEnabled;
        if negb syncEnabled then Ret tt
        else
          match extractTaskMasterIdFromJiraIssue issueData with
          | None => Ret tt
          | Some taskId =>
              held ← trigger (LocksHas ("jira:" +:+ issueKey));
              if (held : bool) then Ret tt
              else
                trigger (LocksAdd ("jira:" +:+ issueKey));;
                log ("Processing Jira issue update: " +:+ issueKey
                     +:+ " -> Task " +:+ toString taskId);;
                updateTaskMasterTask taskId issueData;;
                log ("Completed Jira sync: " +:+ issueKey +:+ " -> " +:+ toString taskId);;
                trigger (Emit (JiraSynced issueKey taskId))
          end)
       (fun error =>
          log_error ("Failed to handle Jira issue update: " +:+ issueKey) error;;
          trigger (Emit (JiraSyncError issueKey error))))
    (trigger (LocksDelete ("jira:" +:+ issueKey))).

(** ** Sequential execution *)

(** The handler's own state and what its collaborators have seen. *)
Record World := mkWorld {
  syncEnabled : bool;
  syncLocks : gset string;
  console : list (level * string);
  emitted : list event;
  rate_limited : nat;
  mcp_calls : list (string * payload);
  tasks_file : file_state;
  file_writes : list Store.t
}.

(** The collaborators: the answer of the MCP client to a tool call, given
    the calls made before it; the outcome of a write of [tasks.json]; the
    clock. *)
Record Env := mkEnv {
  mcp : list (string * payload) -> string -> payload -> error + response;
  write_error : file_state -> Store.t -> option error;
  now : nat -> string
}.

Definition with_locks (l : gset string) (w : World) : World :=
  mkWorld (syncEnabled w) l (console w) (emitted w) (rate_limited w)
          (mcp_calls w) (tasks_file w) (file_writes w).

Definition perform (env : Env) {X} (op : eff X) (w : World) : X * World :=
  match op in eff X return X * World with
  | GetSyncEnabled => (syncEnabled w, w)
  | LocksHas k => (bool_decide (k ∈ syncLocks w), w)
  | LocksAdd k => (tt, with_locks ({[k]} ∪ syncLocks w) w)
  | LocksDelete k => (tt, with_locks (syncLocks w ∖ {[k]}) w)
  | Console lvl msg =>
      (tt, mkWorld (syncEnabled w) (syncLocks w) (console w ++ [(lvl, msg)])
                   (emitted w) (rate_limited w) (mcp_calls w) (tasks_file w)
                   (file_writes w))
  | Emit ev =>
      (tt, mkWorld (syncEnabled w) (syncLocks w) (console w)
                   (emitted w ++ [ev]) (rate_limited w) (mcp_calls w)
                   (tasks_file w) (file_writes w))
  | ApplyRateLimit _ =>
      (tt, mkWorld (syncEnabled w) (syncLocks w) (console w) (emitted w)
                   (S (rate_limited w)) (mcp_calls w) (tasks_file w)
                   (file_writes w))
  | McpInvoke tool args =>
      (mcp env (mcp_calls w) tool args,
       mkWorld (syncEnabled w) (syncLocks w) (console w) (emitted w)
               (rate_limited w) (mcp_calls w ++ [(tool, args)]) (tasks_file w)
               (file_writes w))
  | ReadTasksFile =>
      (match tasks_file w with
       | FileMissing => inl (Rejected "ENOENT: no such file or directory")
       | FileInvalid _ => inl (JsError "SyntaxError: Unexpected token in JSON")
       | FileJson d => inr d
       end, w)
  | WriteTasksFile d =>
      match write_error env (tasks_file w) d with
      | Some e => (inl e, w)
      | None =>
          (inr tt,
           mkWorld (syncEnabled w) (syncLocks w) (console w) (emitted w)
                   (rate_limited w) (mcp_calls w) (FileJson d)
                   (file_writes w ++ [d]))
      end
  | DateNow => (now env (length (file_writes w)), w)
  end.

(** The outcome of a method: its promise is fulfilled or rejected. *)
Inductive outcome (A : Type) :=
| Fulfilled (a : A)
| RejectedWith (e : error).
Arguments Fulfilled {A} a.
Arguments RejectedWith {A} e.

(** Run a method to completion, with nothing else in between. *)
Fixpoint run (env : Env) {A} (p : prog A) (w : World) : outcome A * World :=
  match p with
  | Ret a => (Fulfilled a, w)
  | Throw e => (RejectedWith e, w)
  | Vis op k => let (x, w') := perform env op w in run env (k x) w'
  end.

(** ** Interleaved execution *)

(** Several invocations in flight at once.  JavaScript runs one of them at a
    time and switches only where the running one awaits: an invocation that
    is started, or resumed, runs up to its next awaited operation. *)
Module Interleaving.

Inductive thread :=
| Pending (p : prog unit)
| Settled (o : outcome unit).

(** Run [p] up to and including its next awaited operation. *)
Fixpoint resume (env : Env) (p : prog unit) (w : World) : thread * World :=
  match p with
  | Ret a => (Settled (Fulfilled a), w)
  | Throw e => (Settled (RejectedWith e), w)
  | Vis op k =>
      let (x, w') := perform env op w in
      if is_await op then (Pending (k x), w') else resume env (k x) w'
  end.

(** The event loop gives its turn to invocation [i]. *)
Definition turn (env : Env) (i : nat) (st : list thread * World) : list thread * World :=
  let (ts, w) := st in
  match ts !! i with
  | Some (Pending p) => let (t, w') := resume env p w in (<[i:=t]> ts, w')
  | _ => st
  end.

(** The turns of [order], one after the other. *)
Definition schedule (env : Env) (order : list nat) (st : list thread * World)
  : list thread * World :=
  fold_left (fun st i => turn env i st) order st.

Definition in_flight (t : thread) : bool :=
  match t with
  | Pending _ => true
  | Settled _ => false
  end.

End Interleaving.

(** ** Entry points *)

(** The three sync entry points, each with the lock key it works under. *)
Inductive entry_point : string -> prog unit -> Prop :=
| TagSync (tagName : string) (tasks : list Task.t) :
    entry_point ("tag:" +:+ tagName) (handleTagUpdate tagName tasks)
| TaskSync (taskData : Task.t) (tagName : option string) :
    entry_point ("task:" +:+ toString (Task.id taskData))
                (handleTaskUpdate taskData tagName)
| ReverseSync (issueData : Issue.t) :
    entry_point ("jira:" +:+ Issue.key issueData) (handleJiraIssueUpdate issueData).

(** A method (or what is left of it after some awaits) that ends, on every
    way out, in [syncLocks.delete(k)]. *)
Definition releases (k : string) (p : prog unit) : Prop :=
  exists body, p = try_finally body (trigger (LocksDelete k)).

(** ** Reading a trace *)

Definition is_tool (tool : string) (c : string * payload) : bool :=
  String.eqb (fst c) tool.

Definition calls_of (tool : string) (w : World) : list (string * payload) :=
  List.filter (is_tool tool) (mcp_calls w).

Definition create_calls : World -> list (string * payload) :=
  calls_of "mcp__atlassian__jira_create_issue".

(** The lookup that [findJiraIssueForTask] sends for a task id. *)
Definition search_call (taskId : task_id) : string * payload :=
  ("mcp__atlassian__jira_search",
   [("jql", VStr ("cf[" +:+ taskMasterIdField +:+ "] ~ "
                  +:+ dquote +:+ toString taskId +:+ dquote));
    ("limit", VNum 1)]).

(** [w'] is [w] after the MCP calls [cs]: the handler's flag, locks and
    emitted events and the task file are the same (console lines and
    rate-limiter hits may have been added). *)
Definition extends (w w' : World) (cs : list (string * payload)) : Prop :=
  syncEnabled w' = syncEnabled w /\
  syncLocks w' = syncLocks w /\
  emitted w' = emitted w /\
  mcp_calls w' = mcp_calls w ++ cs /\
  tasks_file w' = tasks_file w /\
  file_writes w' = file_writes w.

(** A call that is no lookup. *)
Definition not_search (c : string * payload) : Prop :=
  c.1 <> "mcp__atlassian__jira_search".

(** The lookups among the calls [cs], and the lookups of a list of tasks,
    one per task and in its order. *)
Definition searches (cs : list (string * payload)) : list (string * payload) :=
  List.filter (is_tool "mcp__atlassian__jira_search") cs.

Definition lookups (tasks : list Task.t) : list (string * payload) :=
  map (fun task => search_call (Task.id task)) tasks.

(** The state after one more console line. *)
Definition logged (lvl : level) (msg : string) (w : World) : World :=
  mkWorld (syncEnabled w) (syncLocks w) (console w ++ [(lvl, msg)])
          (emitted w) (rate_limited w) (mcp_calls w) (tasks_file w)
          (file_writes w).

(** The handler as its constructor leaves it, over a given [tasks.json]. *)
Definition initial_world (file : file_state) : World :=
  mkWorld true ∅ [] [] 0 [] file [].

(** The promise of a call was fulfilled. *)
Definition resolved {X} (r : error + X) : bool :=
  match r with
  | inr _ => true
  | inl _ => false
  end.

(** ** Sample data *)

(** A task object without a [tags] property. *)
Definition untagged_task : Task.t :=
  Task.mk (IdStr "t-3") (Some "Write notes") None None None
          (Some "pending") None None None [].

(** A task routed by a [jira:] tag only. *)
Definition jira_tagged_task : Task.t :=
  Task.mk (IdStr "t-4") (Some "Triage") None None None
          (Some "pending") None None (Some ["jira:triage"]) [].

(** The task of the creation scenario. *)
Definition fix_bug_task : Task.t :=
  Task.mk (IdStr "t-1") (Some "Fix bug") None None None
          (Some "pending") (Some "high") None (Some ["cc-dev:proj"]) [].

(** A store whose [master] tag holds task 1 and whose [backlog] tag holds
    task [t-7]. *)
Definition master_task_1 : Task.t :=
  Task.mk (IdNum 1) (Some "Old title") None (Some "Old text") None
          (Some "pending") (Some "low") None (Some ["cc-dev:proj"])
          [("dependencies", "[]")].

Definition master_task_2 : Task.t :=
  Task.mk (IdNum 2) (Some "Sibling") None None None
          (Some "review") (Some "medium") None None [].

Definition backlog_task : Task.t :=
  Task.mk (IdStr "t-7") (Some "Parked") None None None
          (Some "pending") None None (Some ["cc-dev:proj"]) [].

Definition sample_store : Store.t :=
  Store.mk (Some (Store.mkTag (Some [master_task_1; master_task_2]) []))
           None
           (Some (Store.mkMeta (Some "2025-01-01T00:00:00.000Z") [("version", "1")]))
           [("backlog", Store.mkTag (Some [backlog_task]) [])].

(** The issue of the reverse-sync scenario, cross-referenced to task 1. *)
Definition updated_issue : Issue.t :=
  Issue.mk "PROJ-9"
    (Some (Issue.mkFields (Some "Updated title") None (Some "In Progress")
                          (Some "High") (Some (IdStr "1")))).


(** A tracker that answers a lookup with issue [PROJ-1] once an issue has
    been created and with nothing before, and a creation with the key
    [PROJ-1]; a file system on which writes succeed; a fixed clock. *)
Definition sample_mcp (history : list (string * payload)) (tool : string)
    (args : payload) : error + response :=
  if String.eqb tool "mcp__atlassian__jira_search" then
    if existsb (is_tool "mcp__atlassian__jira_create_issue") history
    then inr (RIssues [Issue.mk "PROJ-1" None])
    else inr (RIssues [])
  else if String.eqb tool "mcp__atlassian__jira_create_issue"
       then inr (RObject (Some "PROJ-1"))
       else inr RNull.

Definition sample_env : Env :=
  mkEnv sample_mcp (fun _ _ => None) (fun _ => "2025-06-01T12:00:00.000Z").

(** A tracker on which every creation is rejected and every other call is
    answered with nothing. *)
Definition failing_mcp (history : list (string * payload)) (tool : string)
    (args : payload) : error + response :=
  if String.eqb tool "mcp__atlassian__jira_create_issue"
  then inl (Rejected "503 Service Unavailable")
  else if String.eqb tool "mcp__atlassian__jira_search"
       then inr (RIssues [])
       else inr RNull.

Definition failing_env : Env :=
  mkEnv failing_mcp (fun _ _ => None) (fun _ => "2025-06-01T12:00:00.000Z").

(** A second task of project [proj] and a task of another project. *)
Definition second_task : Task.t :=
  Task.mk (IdStr "t-2") (Some "Add tests") None None None
          (Some "in_progress") (Some "medium") None
          (Some ["cc-dev:proj"; "docs"]) [].

Definition other_project_task : Task.t :=
  Task.mk (IdNum 5) (Some "Ship") None None None
          None None None (Some ["atlassian:board"; "cc-dev:web:ui"]) [].

(** Three invocations of tag sync for the tag [master] with the same
    batch, none of them started yet. *)
Definition three_tag_syncs : list Interleaving.thread * World :=
  ([Interleaving.Pending (handleTagUpdate "master" [fix_bug_task]);
    Interleaving.Pending (handleTagUpdate "master" [fix_bug_task]);
    Interleaving.Pending (handleTagUpdate "master" [fix_bug_task])],
   initial_world FileMissing).

(** The three are called one after the other, without awaiting: the first
    runs up to its first await (the rate limiter), the second returns at
    once, the third runs up to its first await.  Then the first and the
    third each send their lookup; when the answer to its lookup arrives,
    each passes the rate limiter again and sends its creation; when the
    answer to its creation arrives, each runs to its end. *)
Definition racing_order : list nat :=
  [0; 1; 2; 0; 2; 0; 0; 2; 2; 0; 2]%nat.

(** * Further code *)

(** ** The change-detection cycle (taskmaster-integration-handler.js) *)

(** The entries of an object in JavaScript's property order (see
    [Object_entries]), for any kind of value. *)
Fixpoint indexed_props {A} (l : list (string * A)) : list (N * (string * A)) :=
  match l with
  | [] => []
  | e :: l' =>
      match array_index (fst e) with
      | Some n => insert_indexed n e (indexed_props l')
      | None => indexed_props l'
      end
  end.

Definition js_entries {A} (l : list (string * A)) : list (string * A) :=
  map snd (indexed_props l)
  ++ List.filter (fun e => negb (bool_decide (is_Some (array_index (fst e))))) l.

(** The body of the loop of [processTaskMasterUpdates] over
    [Object.entries(tasksData)]. *)
Definition sync_other_tag (entry : string * Store.tag_data) : prog unit :=
  let '(tagName, tagData) := entry in
  if negb (String.eqb tagName "master") && negb (String.eqb tagName "metadata")
  then match Store.tasks tagData with
       | Some tasks => handleTagUpdate tagName tasks
       | None => Ret tt
       end
  else Ret tt.

(** [processTaskMasterUpdates()].  Of the entries of [tasksData], [master]
    and [metadata] are skipped by name and the top-level [tasks] array
    because an array has no [tasks] property: the loop acts on the other
    tags. *)
Definition processTaskMasterUpdates : prog unit :=
  try_catch
    (tasksData ← await ReadTasksFile;
     (match master_tasks tasksData with
      | Some tasks => handleTagUpdate "master" tasks
      | None => Ret tt
      end);;
     for_each (js_entries (Store.other_tags tasksData)) sync_other_tag)
    (fun error => log_error "Failed to process TaskMaster updates:" error).

(** [performInitialSync()] *)
Definition performInitialSync : prog unit :=
  log "Performing initial TaskMaster sync...";;
  processTaskMasterUpdates;;
  log "Initial sync completed".

(** The [tag:synced] event of a tag sync, if it emits one. *)
Definition tag_events (tagName : string) (tasks : list Task.t) : list event :=
  match filterSyncableTasks tasks with
  | [] => []
  | _ :: _ => [TagSynced tagName (length (filterSyncableTasks tasks))]
  end.

(** The tasks a tag sync attempts. *)
Definition attempted (tasks : list Task.t) : list Task.t :=
  flat_map snd (Object_entries (groupTasksByProject (filterSyncableTasks tasks))).

(** The tags a change-detection cycle syncs, master first, each with its
    task list. *)
Definition synced_tags (d : Store.t) : list (string * list Task.t) :=
  match master_tasks d with
  | Some tasks => [("master", tasks)]
  | None => []
  end
  ++ omap (fun '(tagName, tagData) =>
             if negb (String.eqb tagName "master")
                && negb (String.eqb tagName "metadata")
             then pair tagName <$> Store.tasks tagData
             else None)
          (js_entries (Store.other_tags d)).

(** ** Project configuration (cc-dev-atlassian-integration.js) *)

Module Project.
Record config := mkConfig {
  name : option string;
  key : option string
}.
End Project.

(** One character of the class [[A-Z0-9]]. *)
Definition upper_alnum (c : ascii) : bool :=
  let n := nat_of_ascii c in
  (Nat.leb 65 n && Nat.leb n 90) || (Nat.leb 48 n && Nat.leb n 57).

Fixpoint all_chars (f : ascii -> bool) (s : string) : bool :=
  match s with
  | EmptyString => true
  | String c s' => f c && all_chars f s'
  end.

(** [/^[A-Z0-9]{2,10}$/.test(key)] *)
Definition key_pattern (key : string) : bool :=
  Nat.leb 2 (String.length key) && Nat.leb (String.length key) 10
  && all_chars upper_alnum key.

(** [validateProjectConfig(config)]: [inl] is the error it throws. *)
Definition validateProjectConfig (config : Project.config) : error + unit :=
  let required := [("name", Project.name config); ("key", Project.key config)] in
  let missing := map fst (List.filter (fun f => negb (Js.truthy_opt (snd f))) required) in
  if (0 <? length missing)%nat then
    inl (JsError ("Missing required project fields: " +:+ String.concat ", " missing))
  else if negb (key_pattern (default "undefined" (Project.key config))) then
    inl (JsError "Project key must be 2-10 uppercase alphanumeric characters")
  else inr tt.

(** The tag that [initializeProjectTaskMasterIntegration] gives a project:
    [cc-dev:${ecosystem.jiraProject.key.toLowerCase()}]. *)
Definition project_tag (projectKey : string) : string :=
  "cc-dev:" +:+ Js.toLowerCase projectKey.

(** ** The MCP client of the bootstrap (cc-dev-atlassian-integration.js) *)

Definition payload_truthy (v : option jsval) : bool :=
  match v with
  | Some (VStr s) => Js.truthy s
  | Some (VNum n) => negb (n =? 0)
  | Some (VStrs _) => true
  | Some VUndef | None => false
  end.

Definition payload_string (v : option jsval) : string :=
  match v with
  | Some (VStr s) => s
  | Some (VNum n) => Js.show_Z n
  | Some (VStrs l) => String.concat "," l
  | Some VUndef | None => "undefined"
  end.

(** [realMCPClient.invoke(toolName, params)] for the tools the sync engine
    calls: a search answers with an object that has an [issues] array and
    no length, a creation checks its parameters and numbers the issue with
    [Math.floor(Math.random() * 1000) + 1] (here [issueNumber], a function
    of the number of calls made so far), an update answers with the key it
    was given, and any other tool with a success object. *)
Definition bundled_mcp (issueNumber : nat -> Z)
    (history : list (string * payload)) (tool : string) (params : payload)
  : error + response :=
  if String.eqb tool "mcp__atlassian__jira_create_issue" then
    if negb (payload_truthy (prop "project_key" params))
       || negb (payload_truthy (prop "summary" params))
    then inl (JsError "Missing required parameters: project_key and summary")
    else inr (RObject (Some (payload_string (prop "project_key" params) +:+ "-"
                             +:+ Js.show_Z (issueNumber (length history)))))
  else if String.eqb tool "mcp__atlassian__jira_search" then
    inr (RObject None)
  else if String.eqb tool "mcp__atlassian__jira_update_issue" then
    inr (RObject (Some (payload_string (prop "issue_key" params))))
  else inr (RObject None).

Definition bundled_env (issueNumber : nat -> Z) : Env :=
  mkEnv (bundled_mcp issueNumber) (fun _ _ => None)
        (fun _ => "2025-06-01T12:00:00.000Z").

(** ** Rate limiting (services/atlassian-integration-service.js) *)

Module RateLimiter.

(** An entry of [config.rateLimits] and the limiter built from it. *)
Record config := mkConfig {
  requestsPerSecond : Z;
  burst : Z;
  retryAfter : Z
}.

Record limiter := mkLimiter {
  tokens : Z;
  lastRefill : Z;
  cfg : config
}.

(** [config.rateLimits] (config/integration-config.js) *)
Definition rateLimits : list (string * config) :=
  [("jira", mkConfig 10 20 5000);
   ("confluence", mkConfig 8 15 5000);
   ("jsm", mkConfig 5 10 7000)].

(** [initializeRateLimiters()] at time [now] ([Date.now()], in ms). *)
Definition initializeRateLimiters (now : Z) : gmap string limiter :=
  list_to_map (map (fun '(service, c) => (service, mkLimiter (burst c) now c))
                   rateLimits).

(** The body of [applyRateLimit] on the limiter of the service: the
    limiter as the call leaves it, and the pause it awaited, if any.
    [Math.floor(timePassed / (1000 / requestsPerSecond))] is an exact
    integer quotient when the rate divides 1000, as the configured rates
    do. *)
Definition refill (l : limiter) (now : Z) : limiter * option Z :=
  let timePassed := now - lastRefill l in
  let tokensToAdd := timePassed / (1000 / requestsPerSecond (cfg l)) in
  let tokens := Z.min (burst (cfg l)) (tokens l + tokensToAdd) in
  if tokens <=? 0
  then (mkLimiter 1 now (cfg l), Some (retryAfter (cfg l)))
  else (mkLimiter (tokens - 1) now (cfg l), None).

(** [applyRateLimit(service)] at time [now]. *)
Definition applyRateLimit (service : string) (now : Z)
    (rateLimiters : gmap string limiter) : gmap string limiter * option Z :=
  match rateLimiters !! service with
  | None => (rateLimiters, None)
  | Some l =>
      let (l', pause) := refill l now in
      (<[service := l']> rateLimiters, pause)
  end.

(** A series of calls for one service at the given times. *)
Fixpoint calls (service : string) (times : list Z)
    (rateLimiters : gmap string limiter) : gmap string limiter * list (option Z) :=
  match times with
  | [] => (rateLimiters, [])
  | now :: rest =>
      let (m, pause) := applyRateLimit service now rateLimiters in
      let (m', pauses) := calls service rest m in
      (m', pause :: pauses)
  end.

End RateLimiter.

(** ** Reading a grouping *)

(** Task [task] has project key [k]. *)
Definition keyed (k : string) (task : Task.t) : bool :=
  bool_decide (extractProjectKeyFromTask task = Some k).

(** A task with a cc-dev tag, another in the default group, and one whose
    first cc-dev tag names no project. *)
Definition adaptive_task : Task.t :=
  Task.mk (IdStr "t-8") (Some "Tune") None None None
          None None None (Some ["jira:adaptive"]) [].

Definition unnamed_project_task : Task.t :=
  Task.mk (IdStr "t-9") (Some "Lost") None None None
          None None None (Some ["cc-dev:"; "cc-dev:proj"]) [].

(** ** Reading an outcome *)

(** The answer to a lookup names an issue: it is a non-empty array. *)
Definition finds_issue (r : error + response) : bool :=
  match r with
  | inr (RIssues (_ :: _)) => true
  | _ => false
  end.

(** The calls of a creation and of an update. *)
Definition create_call (taskData : Task.t) (projectKey : string) : string * payload :=
  ("mcp__atlassian__jira_create_issue", mapTaskToJiraFields taskData projectKey).

Definition update_call (issueKey : string) (taskData : Task.t) : string * payload :=
  ("mcp__atlassian__jira_update_issue",
   ("issue_key", VStr issueKey) :: mapTaskUpdatesToJiraFields taskData).

Definition transition_call (issueKey : string) (taskData : Task.t) : string * payload :=
  ("mcp__atlassian__jira_transition_issue",
   [("issue_key", VStr issueKey);
    ("transition_name", VStr (mapTaskStatusToJiraStatus (Task.status taskData)))]).

(** The answer of the collaborators to a call made in state [w]. *)
Definition answer (env : Env) (w : World) (c : string * payload) : error + response :=
  mcp env (mcp_calls w) c.1 c.2.

(** The state after the calls [cs]. *)
Definition called (cs : list (string * payload)) (w : World) : World :=
  mkWorld (syncEnabled w) (syncLocks w) (console w) (emitted w)
          (rate_limited w) (mcp_calls w ++ cs) (tasks_file w) (file_writes w).

(** A tracker on which lookups fail. *)
Definition offline_mcp (history : list (string * payload)) (tool : string)
    (args : payload) : error + response :=
  if String.eqb tool "mcp__atlassian__jira_search"
  then inl (Rejected "ETIMEDOUT")
  else inr (RObject (Some "PROJ-2")).

Definition offline_env : Env :=
  mkEnv offline_mcp (fun _ _ => None) (fun _ => "2025-06-01T12:00:00.000Z").

(** A tracker that finds issue [PROJ-1] for every task and refuses every
    status transition. *)
Definition strict_workflow_mcp (history : list (string * payload)) (tool : string)
    (args : payload) : error + response :=
  if String.eqb tool "mcp__atlassian__jira_search"
  then inr (RIssues [Issue.mk "PROJ-1" None])
  else if String.eqb tool "mcp__atlassian__jira_transition_issue"
       then inl (Rejected "Transition not allowed")
       else inr RNull.

Definition strict_workflow_env : Env :=
  mkEnv strict_workflow_mcp (fun _ _ => None) (fun _ => "2025-06-01T12:00:00.000Z").

(** A task without a title. *)
Definition untitled_task : Task.t :=
  Task.mk (IdNum 12) None None (Some "No heading") None
          None None None (Some ["cc-dev:proj"]) [].

(** A task that carries only the tag of project [key]. *)
Definition project_task (taskId : task_id) (key : string) : Task.t :=
  Task.mk taskId None None None None None None None (Some [project_tag key]) [].

(** A store with numbered tags: [master] holds two tasks, the tags
    [release], [10] and [2] one each, and [archive] has no task list. *)
Definition sprint_store : Store.t :=
  Store.mk (Some (Store.mkTag (Some [fix_bug_task; untagged_task]) []))
           None None
           [("release", Store.mkTag (Some [other_project_task]) []);
            ("10", Store.mkTag (Some [second_task]) []);
            ("2", Store.mkTag (Some [jira_tagged_task]) []);
            ("archive", Store.mkTag None [])].

(** ** Reading a task sync *)

(** The state in which [handleTaskUpdate] starts the sync of the task: the
    key of the task is held and the start is on the console. *)
Definition task_sync_started (taskData : Task.t) (w : World) : World :=
  logged LogInfo ("Processing TaskMaster task update: " +:+ toString (Task.id taskData))
    (with_locks ({["task:" +:+ toString (Task.id taskData)]} ∪ syncLocks w) w).

(** The signal of a task sync, given the outcome of its [syncTaskToJira]. *)
Definition task_event {A} (taskData : Task.t) (tagName : option string)
    (o : outcome A) : event :=
  match o with
  | Fulfilled _ => TaskSynced (Task.id taskData) (default "master" tagName)
  | RejectedWith e => TaskSyncError (Task.id taskData) e
  end.

(** A file system on which [tasks.json] cannot be written. *)
Definition readonly_env : Env :=
  mkEnv sample_mcp (fun _ _ => Some (Rejected "EACCES: permission denied"))
        (fun _ => "2025-06-01T12:00:00.000Z").

(** A clock that shows the number of writes made so far. *)
Definition counting_env : Env :=
  mkEnv sample_mcp (fun _ _ => None) (fun n => "write " +:+ Js.show_nat n).

(** * Properties *)

(** ** String primitives *)

Lemma startsWith_app (p rest : string) : Js.startsWith (p +:+ rest) p = true.
Proof.
  unfold Js.startsWith. induction p as [|c p IH]; simpl.
  - now destruct rest.
  - destruct (ascii_dec c c) as [_|n]; [exact IH | now contradict n].
Qed.

Lemma startsWith_inv (s p : string) :
  Js.startsWith s p = true -> exists rest, s = p +:+ rest.
Proof.
  unfold Js.startsWith. revert s. induction p as [|c p IH]; intros s H.
  - exists s. reflexivity.
  - destruct s as [|d s]; simpl in H; [discriminate|].
    destruct (ascii_dec c d) as [->|_]; [|discriminate].
    destruct (IH _ H) as [rest ->]. now exists rest.
Qed.

Lemma split_plain (sep : ascii) (s : string) :
  Js.has_char sep s = false -> Js.split sep s = [s].
Proof.
  induction s as [|d s IH]; simpl; [reflexivity|].
  intros H. apply orb_false_elim in H as [Hd Hs].
  rewrite Hd, (IH Hs). reflexivity.
Qed.

Lemma split_at (sep : ascii) (a b : string) :
  Js.has_char sep a = false ->
  Js.split sep (a +:+ String sep b) = a :: Js.split sep b.
Proof.
  induction a as [|d a IH]; simpl.
  - intros _. now rewrite Ascii.eqb_refl.
  - intros H. apply orb_false_elim in H as [Hd Ha].
    rewrite Hd, (IH Ha). reflexivity.
Qed.

(** The second colon-segment of a tag [cc-dev:<seg>] or
    [cc-dev:<seg>:<more>]. *)
Lemma second_segment (seg : string) (more : option string) :
  Js.has_char ":" seg = false ->
  nth_error
    (Js.split ":" ("cc-dev:" +:+ seg +:+ from_option (String ":") "" more)) 1
  = Some seg.
Proof.
  intros H.
  change ("cc-dev:" +:+ seg +:+ from_option (String ":") "" more)
    with ("cc-dev" +:+ String ":" (seg +:+ from_option (String ":") "" more)).
  rewrite split_at by reflexivity. simpl.
  destruct more as [m|]; simpl.
  - now rewrite split_at.
  - replace (seg +:+ "") with seg.
    + now rewrite split_plain.
    + clear H. induction seg as [|c seg IH]; [reflexivity|].
      change (String c seg +:+ "") with (String c (seg +:+ "")). now rewrite <- IH.
Qed.

(** ** Tag classifier *)

Lemma sync_prefix_spec (tag : string) :
  sync_prefix tag = true <->
  Js.startsWith tag "cc-dev:" = true \/
  Js.startsWith tag "atlassian:" = true \/
  Js.startsWith tag "jira:" = true.
Proof.
  unfold sync_prefix. rewrite !orb_true_iff. tauto.
Qed.

(** C2. [shouldSyncTask] is a total boolean function; it is false for a
    task without a tags array and for one with an empty array, and it is
    true exactly when some tag of the task starts with [cc-dev:],
    [atlassian:] or [jira:]. *)
Theorem shouldSyncTask_spec (task : Task.t) :
  (Task.tags task = None \/ Task.tags task = Some [] ->
   shouldSyncTask task = false) /\
  (shouldSyncTask task = true <->
   exists tags tag,
     Task.tags task = Some tags /\ In tag tags /\
     (Js.startsWith tag "cc-dev:" = true \/
      Js.startsWith tag "atlassian:" = true \/
      Js.startsWith tag "jira:" = true)).
Proof.
  unfold shouldSyncTask. split.
  - intros [-> | ->]; reflexivity.
  - destruct (Task.tags task) as [tags|]; split.
    + intros H. apply existsb_exists in H as (tag & Hin & Hp).
      exists tags, tag. repeat split; trivial. now apply sync_prefix_spec.
    + intros (tags' & tag & Heq & Hin & Hp). injection Heq as <-.
      apply existsb_exists. exists tag. split; trivial.
      now apply sync_prefix_spec.
    + discriminate.
    + intros (tags' & tag & Heq & _). discriminate.
Qed.

(** A task routed by a [jira:] tag is syncable; one without a tags array
    is not. *)
Lemma shouldSyncTask_spec_witness :
  shouldSyncTask jira_tagged_task = true /\
  shouldSyncTask untagged_task = false.
Proof.
  split.
  - apply (proj2 (shouldSyncTask_spec jira_tagged_task)).
    exists ["jira:triage"], "jira:triage".
    split; [reflexivity | split; [now left | right; right; reflexivity]].
  - apply (proj1 (shouldSyncTask_spec untagged_task)). now left.
Defined.

(** ** Field mappers *)

(** C6. Task status -> Jira status -> task status is the identity on
    pending, in_progress, review and completed; cancelled comes back as
    completed. *)
Theorem status_round_trip :
  (forall s, In s ["pending"; "in_progress"; "review"; "completed"] ->
     mapJiraStatusToTaskStatus (mapTaskStatusToJiraStatus (Some s)) = s) /\
  mapTaskStatusToJiraStatus (Some "cancelled") = "Done" /\
  mapJiraStatusToTaskStatus (mapTaskStatusToJiraStatus (Some "cancelled"))
  = "completed".
Proof.
  split; [|split; reflexivity].
  intros s Hs. simpl in Hs.
  destruct Hs as [<- | [<- | [<- | [<- | []]]]]; reflexivity.
Qed.

(** The round trip of [review]. *)
Lemma status_round_trip_witness :
  mapJiraStatusToTaskStatus (mapTaskStatusToJiraStatus (Some "review")) = "review".
Proof.
  apply (proj1 status_round_trip). right. right. now left.
Defined.

(** ** Sequential execution of the control operators *)

Section Run.
Context (env : Env).

Lemma run_bind {A B} (p : prog A) (f : A -> prog B) (w : World) :
  run env (bind p f) w =
  match run env p w with
  | (Fulfilled a, w') => run env (f a) w'
  | (RejectedWith e, w') => (RejectedWith e, w')
  end.
Proof.
  revert w. induction p as [a | e | X op k IH]; intros w; simpl; trivial.
  destruct (perform env op w) as [x w']. apply IH.
Qed.

Lemma run_mbind {A B} (p : prog A) (f : A -> prog B) (w : World) :
  run env (p ≫= f) w =
  match run env p w with
  | (Fulfilled a, w') => run env (f a) w'
  | (RejectedWith e, w') => (RejectedWith e, w')
  end.
Proof. apply run_bind. Qed.

Lemma run_try_catch {A} (p : prog A) (h : error -> prog A) (w : World) :
  run env (try_catch p h) w =
  match run env p w with
  | (Fulfilled a, w') => (Fulfilled a, w')
  | (RejectedWith e, w') => run env (h e) w'
  end.
Proof.
  revert w. induction p as [a | e | X op k IH]; intros w; simpl; trivial.
  destruct (perform env op w) as [x w']. apply IH.
Qed.

Lemma run_try_finally {A} (p : prog A) (f : prog unit) (w : World) :
  run env (try_finally p f) w =
  match run env p w with
  | (o, w') =>
      match run env f w' with
      | (Fulfilled _, w'') => (o, w'')
      | (RejectedWith e, w'') => (RejectedWith e, w'')
      end
  end.
Proof.
  revert w. induction p as [a | e | X op k IH]; intros w; simpl.
  - rewrite run_bind. now destruct (run env f w) as [[[]|e] w'].
  - rewrite run_bind. now destruct (run env f w) as [[[]|e'] w'].
  - destruct (perform env op w) as [x w']. apply IH.
Qed.

(** Running to completion is the same as taking turn after turn. *)
Lemma run_resume (p : prog unit) (w : World) :
  run env p w =
  match Interleaving.resume env p w with
  | (Interleaving.Settled o, w') => (o, w')
  | (Interleaving.Pending p', w') => run env p' w'
  end.
Proof.
  revert w. induction p as [a | e | X op k IH]; intros w; simpl; trivial.
  destruct (perform env op w) as [x w'].
  destruct (is_await op); [reflexivity | apply IH].
Qed.

End Run.

(** C7. The payload of a partial update holds [summary], [description] and
    [priority] exactly when their source on the task is non-empty (title or
    else summary; description or else details; the mapped priority) and no
    other property, in particular no status; [updateJiraIssueFromTask]
    sends it (under the issue key) as one [jira_update_issue] call and,
    when that call succeeds and the task has a status, applies the mapped
    status through a separate [jira_transition_issue] call. *)
Theorem update_payload_spec (taskData : Task.t) :
  let fields := mapTaskUpdatesToJiraFields taskData in
  let summary := Js.or (Task.title taskData) (Task.summary taskData) in
  let description := Js.or (Task.description taskData) (Task.details taskData) in
  prop "summary" fields
    = (if Js.truthy_opt summary then Some (of_opt summary) else None) /\
  prop "description" fields
    = (if Js.truthy_opt description then Some (of_opt description) else None) /\
  prop "priority" fields
    = (if Js.truthy_opt (Task.priority taskData)
       then Some (VStr (mapTaskPriorityToJiraPriority (Task.priority taskData)))
       else None) /\
  (forall name, has_key name fields = true ->
                In name ["summary"; "description"; "priority"]) /\
  has_key "status" fields = false /\
  forall env w issueKey,
    let update :=
      ("mcp__atlassian__jira_update_issue", ("issue_key", VStr issueKey) :: fields) in
    let transition :=
      ("mcp__atlassian__jira_transition_issue",
       [("issue_key", VStr issueKey);
        ("transition_name", VStr (mapTaskStatusToJiraStatus (Task.status taskData)))]) in
    mcp_calls (run env (updateJiraIssueFromTask issueKey taskData) w).2
    = mcp_calls w ++
      update :: (if resolved (mcp env (mcp_calls w) update.1 update.2)
                    && Js.truthy_opt (Task.status taskData)
                 then [transition] else []).
Proof.
  cbv zeta. unfold mapTaskUpdatesToJiraFields.
  repeat split.
  - destruct (Js.truthy_opt (Js.or _ (Task.summary _)));
      destruct (Js.truthy_opt (Js.or _ (Task.details _)));
      destruct (Js.truthy_opt (Task.priority _)); reflexivity.
  - destruct (Js.truthy_opt (Js.or _ (Task.summary _)));
      destruct (Js.truthy_opt (Js.or _ (Task.details _)));
      destruct (Js.truthy_opt (Task.priority _)); reflexivity.
  - destruct (Js.truthy_opt (Js.or _ (Task.summary _)));
      destruct (Js.truthy_opt (Js.or _ (Task.details _)));
      destruct (Js.truthy_opt (Task.priority _)); reflexivity.
  - intros name. unfold has_key.
    destruct (Js.truthy_opt (Js.or _ (Task.summary _)));
      destruct (Js.truthy_opt (Js.or _ (Task.details _)));
      destruct (Js.truthy_opt (Task.priority _)); simpl;
      repeat match goal with
             | |- context [String.eqb name ?k] =>
                 destruct (String.eqb_spec name k) as [-> | _]; [simpl; tauto |]
             end;
      intros H; first [discriminate H | apply bool_decide_eq_true in H; now destruct H].
  - destruct (Js.truthy_opt (Js.or _ (Task.summary _)));
      destruct (Js.truthy_opt (Js.or _ (Task.details _)));
      destruct (Js.truthy_opt (Task.priority _)); reflexivity.
  - intros env w issueKey. unfold updateJiraIssueFromTask, updateJiraIssueStatus.
    cbn.
    destruct (mcp env (mcp_calls w) _ _) as [e | r]; cbn; [reflexivity |].
    destruct (Js.truthy_opt (Task.status taskData)); cbn.
    + destruct (mcp env _ _ _) as [e' | r']; cbn; now rewrite <- app_assoc.
    + reflexivity.
Qed.

(** The update of issue [PROJ-1] from the task of the creation scenario:
    title and priority are sent, then the status as a transition. *)
Lemma update_payload_spec_witness :
  mapTaskUpdatesToJiraFields fix_bug_task
  = [("summary", VStr "Fix bug"); ("priority", VStr "High")] /\
  prop "description" (mapTaskUpdatesToJiraFields fix_bug_task) = None /\
  has_key "status" (mapTaskUpdatesToJiraFields fix_bug_task) = false /\
  mcp_calls (run sample_env (updateJiraIssueFromTask "PROJ-1" fix_bug_task)
               (initial_world FileMissing)).2
  = [("mcp__atlassian__jira_update_issue",
      [("issue_key", VStr "PROJ-1"); ("summary", VStr "Fix bug");
       ("priority", VStr "High")]);
     ("mcp__atlassian__jira_transition_issue",
      [("issue_key", VStr "PROJ-1"); ("transition_name", VStr "To Do")])].
Proof.
  destruct (update_payload_spec fix_bug_task) as (_ & H2 & _ & _ & H5 & H6).
  split; [reflexivity | split; [exact H2 | split; [exact H5|]]].
  exact (H6 sample_env (initial_world FileMissing) "PROJ-1").
Defined.

(** ** Project keys and grouping *)

Lemma scan_no_cc_dev (tags : list string) :
  (forall t, In t tags -> Js.startsWith t "cc-dev:" = false) ->
  scan_project_key tags = Some "ADAPT".
Proof.
  induction tags as [|t tags IH]; intros H; simpl; [reflexivity|].
  rewrite (H t) by now left. apply IH. intros t' Ht'. apply H. now right.
Qed.

Lemma scan_first_cc_dev (pre post : list string) (tag : string) :
  (forall t, In t pre -> Js.startsWith t "cc-dev:" = false) ->
  Js.startsWith tag "cc-dev:" = true ->
  scan_project_key (pre ++ tag :: post)
  = Js.toUpperCase <$> nth_error (Js.split ":" tag) 1.
Proof.
  intros Hpre Htag. induction pre as [|t pre IH]; simpl.
  - rewrite Htag. now destruct (nth_error (Js.split ":" tag) 1).
  - rewrite (Hpre t) by now left. apply IH. intros t' Ht'. apply Hpre. now right.
Qed.

Lemma push_group_same (k : string) (x : Task.t) (g : groups) :
  in_group k x (push_group k x g).
Proof.
  unfold in_group. induction g as [|[k' ts] g IH]; simpl.
  - rewrite String.eqb_refl. exists [x]. split; [reflexivity | now left].
  - destruct (String.eqb_spec k k') as [-> | Hne]; simpl.
    + rewrite String.eqb_refl. exists (ts ++ [x]). split; [reflexivity|].
      apply in_or_app. right. now left.
    + destruct (String.eqb_spec k k') as [-> | _]; [contradiction | exact IH].
Qed.

Lemma push_group_keep (k k' : string) (x y : Task.t) (g : groups) :
  in_group k' y g -> in_group k' y (push_group k x g).
Proof.
  unfold in_group. induction g as [|[k0 ts0] g IH]; simpl.
  - intros (ts & H & _). discriminate.
  - intros (ts & H & Hin).
    destruct (String.eqb_spec k k0) as [-> | Hne]; simpl.
    + destruct (String.eqb_spec k' k0) as [-> | _].
      * injection H as <-. exists (ts0 ++ [x]). split; [reflexivity|].
        apply in_or_app. now left.
      * exists ts. now split.
    + destruct (String.eqb_spec k' k0) as [-> | _].
      * exists ts. now split.
      * apply IH. exists ts. now split.
Qed.

Lemma group_step_keep (k : string) (x y : Task.t) (g : groups) :
  in_group k y g -> in_group k y (group_step g x).
Proof.
  intros H. unfold group_step.
  destruct (extractProjectKeyFromTask x) as [pk|]; trivial.
  destruct (Js.truthy pk); trivial. now apply push_group_keep.
Qed.

Lemma group_fold_keep (k : string) (y : Task.t) (tasks : list Task.t) (g : groups) :
  in_group k y g -> in_group k y (fold_left group_step tasks g).
Proof.
  revert g. induction tasks as [|x tasks IH]; intros g H; simpl; trivial.
  apply IH. now apply group_step_keep.
Qed.

(** A task with a non-empty project key ends up in the group of that key. *)
Lemma grouped_under_key (tasks : list Task.t) (task : Task.t) (k : string) :
  In task tasks ->
  extractProjectKeyFromTask task = Some k ->
  Js.truthy k = true ->
  in_group k task (groupTasksByProject tasks).
Proof.
  unfold groupTasksByProject. generalize (@nil (string * list Task.t)) as g.
  induction tasks as [|x tasks IH]; intros g Hin Hk Ht; [destruct Hin|].
  simpl. destruct Hin as [-> | Hin].
  - apply group_fold_keep. unfold group_step. rewrite Hk, Ht.
    apply push_group_same.
  - now apply IH.
Qed.

(** C8 (as the code has it). For a task with a tags array the first tag
    that starts with [cc-dev:] gives the project key, its second
    colon-segment in upper case, and without such a tag the key is [ADAPT];
    a task without a tags array has no project key at all ([null]).  In a
    batch of syncable tasks every task without a [cc-dev:] tag is in the
    [ADAPT] group. *)
Theorem project_key_spec :
  (forall task pre tag post seg more,
     Task.tags task = Some (pre ++ tag :: post) ->
     (forall t, In t pre -> Js.startsWith t "cc-dev:" = false) ->
     tag = "cc-dev:" +:+ seg +:+ from_option (String ":") "" more ->
     Js.has_char ":" seg = false ->
     extractProjectKeyFromTask task = Some (Js.toUpperCase seg)) /\
  (forall task tags,
     Task.tags task = Some tags ->
     (forall t, In t tags -> Js.startsWith t "cc-dev:" = false) ->
     extractProjectKeyFromTask task = Some "ADAPT") /\
  (forall task,
     Task.tags task = None -> extractProjectKeyFromTask task = None) /\
  (forall tasks task,
     Forall (fun t => shouldSyncTask t = true) tasks ->
     In task tasks ->
     (forall t, In t (default [] (Task.tags task)) ->
                Js.startsWith t "cc-dev:" = false) ->
     exists ts,
       group_of "ADAPT" (groupTasksByProject tasks) = Some ts /\ In task ts).
Proof.
  repeat split.
  - intros task pre tag post seg more Htags Hpre -> Hseg.
    unfold extractProjectKeyFromTask. rewrite Htags.
    rewrite scan_first_cc_dev; trivial.
    + now rewrite second_segment.
    + apply (startsWith_app "cc-dev:").
  - intros task tags Htags Hno. unfold extractProjectKeyFromTask.
    rewrite Htags. now apply scan_no_cc_dev.
  - intros task Htags. unfold extractProjectKeyFromTask. now rewrite Htags.
  - intros tasks task Hall Hin Hno.
    apply (grouped_under_key tasks task "ADAPT"); trivial.
    apply List.Forall_forall with (x := task) in Hall; trivial.
    unfold shouldSyncTask in Hall. unfold extractProjectKeyFromTask.
    destruct (Task.tags task) as [tags|]; [|discriminate].
    now apply scan_no_cc_dev.
Qed.

(** A concrete instance of each part of [project_key_spec]. *)
Lemma project_key_spec_witness :
  extractProjectKeyFromTask fix_bug_task = Some "PROJ" /\
  extractProjectKeyFromTask jira_tagged_task = Some "ADAPT" /\
  extractProjectKeyFromTask untagged_task = None /\
  exists ts,
    group_of "ADAPT" (groupTasksByProject [fix_bug_task; jira_tagged_task]) = Some ts /\
    In jira_tagged_task ts.
Proof.
  destruct project_key_spec as (H1 & H2 & H3 & H4).
  split; [|split; [|split]].
  - apply (H1 fix_bug_task [] "cc-dev:proj" [] "proj" None); trivial.
    intros t [].
  - apply (H2 jira_tagged_task ["jira:triage"]); trivial.
    intros t [<- | []]. reflexivity.
  - now apply H3.
  - apply H4.
    + repeat constructor.
    + right. now left.
    + intros t [<- | []]. reflexivity.
Defined.

(** C8 (as stated) fails on a task without a tags array: the result is
    [null], not [ADAPT]. *)
Lemma project_key_untagged_counterexample :
  Task.tags untagged_task = None /\
  (forall t, In t (default [] (Task.tags untagged_task)) ->
             Js.startsWith t "cc-dev:" = false) /\
  extractProjectKeyFromTask untagged_task <> Some "ADAPT".
Proof.
  split; [reflexivity | split].
  - intros t [].
  - discriminate.
Qed.

(** ** Lock discipline of the entry points *)

(** An entry point has the shape
    [try { body } catch (e) { h e } finally { syncLocks.delete(k) }]:
    when the handler [h] cannot throw, the promise is fulfilled and the
    final state is some state with [k] removed from the lock set. *)
Lemma guarded_entry_run (env : Env) (body : prog unit) (h : error -> prog unit)
    (k : string) (w : World) :
  (forall e w1, exists w2, run env (h e) w1 = (Fulfilled tt, w2)) ->
  exists w1,
    run env (try_finally (try_catch body h) (trigger (LocksDelete k))) w
    = (Fulfilled tt, with_locks (syncLocks w1 ∖ {[k]}) w1).
Proof.
  intros Hh. rewrite run_try_finally, run_try_catch.
  destruct (run env body w) as [[[] | e] w1].
  - exists w1. reflexivity.
  - destruct (Hh e w1) as [w2 ->]. exists w2. reflexivity.
Qed.

Lemma removed_lock (k : string) (w : World) :
  k ∉ syncLocks (with_locks (syncLocks w ∖ {[k]}) w).
Proof.
  simpl. intros [_ H]%elem_of_difference. apply H. now apply elem_of_singleton.
Qed.

(** The same under interleaving: at the turn in which such a method
    settles the key is absent, and until then what is left of the method
    still ends in the deletion. *)
Lemma resume_releases (env : Env) (k : string) (p : prog unit) (w : World) :
  releases k p ->
  match Interleaving.resume env p w with
  | (Interleaving.Settled _, w') => k ∉ syncLocks w'
  | (Interleaving.Pending q, _) => releases k q
  end.
Proof.
  intros [body ->]. revert w.
  induction body as [a | e | X op kont IH]; intros w.
  - cbn. apply removed_lock.
  - cbn. apply removed_lock.
  - cbn [try_finally Interleaving.resume].
    destruct (perform env op w) as [x w'].
    destruct (is_await op); [now exists (kont x) | apply IH].
Qed.

(** C1. Whatever the collaborators do and whatever state the handler is
    in, each entry point settles normally (a thrown error is caught inside
    it) and, once it has returned, its lock key is not in the lock set:
    [tag:<name>] for tag sync, [task:<id>] for task sync, and for reverse
    sync the key [jira:<key>] under which the code locks an issue.  The
    same holds when invocations interleave: at the turn in which an entry
    point settles, its key is absent. *)
Theorem lock_released (env : Env) (k : string) (p : prog unit) :
  entry_point k p ->
  (forall w, (run env p w).1 = Fulfilled tt /\ k ∉ syncLocks (run env p w).2) /\
  releases k p /\
  (forall q w,
     releases k q ->
     match Interleaving.resume env q w with
     | (Interleaving.Settled _, w') => k ∉ syncLocks w'
     | (Interleaving.Pending q', _) => releases k q'
     end).
Proof.
  intros Hp. split; [|split].
  - intros w.
    destruct Hp as [tagName tasks | taskData tagName | issueData];
      [unfold handleTagUpdate | unfold handleTaskUpdate | unfold handleJiraIssueUpdate];
      (edestruct guarded_entry_run as [w1 ->];
       [intros e w2; eexists; reflexivity | split; [reflexivity | apply removed_lock]]).
  - destruct Hp; eexists; reflexivity.
  - intros q w Hq. now apply resume_releases.
Qed.

(** The three entry points on sample inputs, against a tracker that
    rejects every creation and without a task file. *)
Lemma lock_released_witness :
  let w := initial_world FileMissing in
  ("tag:master"
     ∉ syncLocks (run failing_env (handleTagUpdate "master" [fix_bug_task]) w).2) /\
  ("task:t-1"
     ∉ syncLocks (run failing_env (handleTaskUpdate fix_bug_task None) w).2) /\
  emitted (run failing_env (handleTaskUpdate fix_bug_task None) w).2
  = [TaskSyncError (IdStr "t-1") (Rejected "503 Service Unavailable")] /\
  ("jira:PROJ-9"
     ∉ syncLocks (run failing_env (handleJiraIssueUpdate updated_issue) w).2) /\
  emitted (run failing_env (handleJiraIssueUpdate updated_issue) w).2
  = [JiraSyncError "PROJ-9" (Rejected "ENOENT: no such file or directory")].
Proof.
  cbv zeta.
  pose proof (lock_released failing_env _ _ (TagSync "master" [fix_bug_task])) as (H1 & _).
  pose proof (lock_released failing_env _ _ (TaskSync fix_bug_task None)) as (H2 & _).
  pose proof (lock_released failing_env _ _ (ReverseSync updated_issue)) as (H3 & _).
  split; [apply H1 | split; [apply H2 | split; [reflexivity | split; [apply H3 | reflexivity]]]].
Defined.

(** ** Reverse sync *)




Lemma findIndex_lookup {A} (f : A -> bool) (l : list A) (i : nat) :
  findIndex f l = Some i -> exists x, l !! i = Some x /\ f x = true.
Proof.
  revert i. induction l as [|y l IH]; intros i; simpl; [discriminate|].
  destruct (f y) eqn:Hy.
  - intros [= <-]. now exists y.
  - destruct (findIndex f l) as [j|]; simpl; [|discriminate].
    intros [= <-]. now apply IH.
Qed.

Lemma masterTasks_store_task (i : nat) (task : Task.t) (d : Store.t) :
  masterTasks (store_task i task d) = <[i:=task]> (masterTasks d).
Proof.
  unfold masterTasks, master_tasks, store_task.
  destruct d as [[[[l|] mx]|] [top|] meta others]; reflexivity.
Qed.

Lemma masterTasks_touch (now : string) (d : Store.t) :
  masterTasks (touch_metadata now d) = masterTasks d.
Proof. reflexivity. Qed.

(** The fields of a task that reverse sync never assigns. *)
Lemma merge_issue_rest (issueData : Issue.t) (task : Task.t) :
  let task' := merge_issue issueData task in
  Task.id task' = Task.id task /\
  Task.summary task' = Task.summary task /\
  Task.details task' = Task.details task /\
  Task.type task' = Task.type task /\
  Task.tags task' = Task.tags task /\
  Task.extra task' = Task.extra task.
Proof.
  unfold merge_issue, merge_priority, merge_status, merge_description, merge_title.
  destruct (issue_summary issueData) as [s|];
    destruct (issue_description issueData) as [ds|];
    destruct (issue_status_name issueData) as [st|];
    destruct (issue_priority_name issueData) as [pr|];
    repeat match goal with
           | |- context [if ?b then _ else _] => destruct b
           end; simpl; repeat split; reflexivity.
Qed.

Ltac merge_frame :=
  unfold merge_priority, merge_status, merge_description, merge_title;
  repeat case_match; repeat split; reflexivity.

Lemma merge_title_frame (issueData : Issue.t) (task : Task.t) :
  let task' := merge_title issueData task in
  Task.description task' = Task.description task /\
  Task.status task' = Task.status task /\
  Task.priority task' = Task.priority task.
Proof. merge_frame. Qed.

Lemma merge_description_frame (issueData : Issue.t) (task : Task.t) :
  let task' := merge_description issueData task in
  Task.title task' = Task.title task /\
  Task.status task' = Task.status task /\
  Task.priority task' = Task.priority task.
Proof. merge_frame. Qed.

Lemma merge_status_frame (issueData : Issue.t) (task : Task.t) :
  let task' := merge_status issueData task in
  Task.title task' = Task.title task /\
  Task.description task' = Task.description task /\
  Task.priority task' = Task.priority task.
Proof. merge_frame. Qed.

Lemma merge_priority_frame (issueData : Issue.t) (task : Task.t) :
  let task' := merge_priority issueData task in
  Task.title task' = Task.title task /\
  Task.description task' = Task.description task /\
  Task.status task' = Task.status task.
Proof. merge_frame. Qed.

(** The four fields it may assign, each under its own guard. *)
Lemma merge_issue_fields (issueData : Issue.t) (task : Task.t) :
  let task' := merge_issue issueData task in
  Task.title task'
    = match issue_summary issueData with
      | Some s => if Js.truthy s && strict_ne s (Task.title task)
                  then Some s else Task.title task
      | None => Task.title task
      end /\
  Task.description task'
    = match issue_description issueData with
      | Some s => if Js.truthy s && strict_ne s (Task.description task)
                  then Some s else Task.description task
      | None => Task.description task
      end /\
  Task.status task'
    = match issue_status_name issueData with
      | Some name =>
          if Js.truthy name
             && strict_ne (mapJiraStatusToTaskStatus name) (Task.status task)
          then Some (mapJiraStatusToTaskStatus name) else Task.status task
      | None => Task.status task
      end /\
  Task.priority task'
    = match issue_priority_name issueData with
      | Some name =>
          if Js.truthy name
             && strict_ne (mapJiraPriorityToTaskPriority name) (Task.priority task)
          then Some (mapJiraPriorityToTaskPriority name) else Task.priority task
      | None => Task.priority task
      end.
Proof.
  cbv zeta. unfold merge_issue.
  pose proof (merge_title_frame issueData task) as (Ht1 & Ht2 & Ht3).
  pose proof (merge_description_frame issueData (merge_title issueData task))
    as (Hd1 & Hd2 & Hd3).
  pose proof (merge_status_frame issueData
                (merge_description issueData (merge_title issueData task)))
    as (Hs1 & Hs2 & Hs3).
  pose proof (merge_priority_frame issueData
                (merge_status issueData
                   (merge_description issueData (merge_title issueData task))))
    as (Hp1 & Hp2 & Hp3).
  cbv zeta in *.
  repeat split.
  - rewrite Hp1, Hs1, Hd1. unfold merge_title.
    repeat case_match; reflexivity.
  - rewrite Hp2, Hs2, <- Ht1. unfold merge_description.
    repeat case_match; reflexivity.
  - rewrite Hp3, <- Ht2, <- Hd2. unfold merge_status.
    repeat case_match; simpl in *; congruence.
  - rewrite <- Ht3, <- Hd3, <- Hs3. unfold merge_priority.
    repeat case_match; simpl in *; congruence.
Qed.



(** ** What a forward sync does to the state *)

Lemma extends_refl (w : World) : extends w w [].
Proof. unfold extends. now rewrite app_nil_r. Qed.

Lemma extends_trans (w1 w2 w3 : World) (c1 c2 : list (string * payload)) :
  extends w1 w2 c1 -> extends w2 w3 c2 -> extends w1 w3 (c1 ++ c2).
Proof.
  unfold extends. intros (A1 & A2 & A3 & A4 & A5 & A6) (B1 & B2 & B3 & B4 & B5 & B6).
  rewrite B1, B2, B3, B4, B5, B6, A1, A2, A3, A4, A5, A6.
  now rewrite app_assoc.
Qed.

Lemma extends_console (w w' : World) (cs : list (string * payload))
    (c : list (level * string)) :
  extends w w' cs ->
  extends w (mkWorld (syncEnabled w') (syncLocks w') c (emitted w')
                     (rate_limited w') (mcp_calls w') (tasks_file w')
                     (file_writes w')) cs.
Proof. unfold extends. cbn. tauto. Qed.

Ltac extends_now :=
  unfold extends; cbn; rewrite <- ?app_assoc, ?app_nil_r; repeat split; reflexivity.

Section Forward.
Context (env : Env).

Lemma findJiraIssueForTask_run (taskId : task_id) (w : World) :
  exists r w',
    run env (findJiraIssueForTask taskId) w = (Fulfilled r, w') /\
    r = match mcp env (mcp_calls w) (search_call taskId).1 (search_call taskId).2 with
        | inr (RIssues (issue :: _)) => Some issue
        | _ => None
        end /\
    extends w w' [search_call taskId].
Proof.
  unfold findJiraIssueForTask, search_call. cbn.
  destruct (mcp env (mcp_calls w) _ _) as [e | [ | [|issue l] | key]]; cbn;
    eexists _, _; (split; [reflexivity | split; [reflexivity | extends_now]]).
Qed.

Lemma updateJiraIssueFromTask_run (issueKey : string) (taskData : Task.t) (w : World) :
  exists o w' cs,
    run env (updateJiraIssueFromTask issueKey taskData) w = (o, w') /\
    extends w w'
      (("mcp__atlassian__jira_update_issue",
        ("issue_key", VStr issueKey) :: mapTaskUpdatesToJiraFields taskData) :: cs) /\
    Forall (fun c => c.1 = "mcp__atlassian__jira_transition_issue") cs.
Proof.
  unfold updateJiraIssueFromTask, updateJiraIssueStatus. cbn.
  destruct (mcp env (mcp_calls w) _ _) as [e | r]; cbn.
  - eexists _, _, []. split; [reflexivity | split; [extends_now | constructor]].
  - destruct (Js.truthy_opt (Task.status taskData)); cbn.
    + destruct (mcp env _ _ _) as [e' | r']; cbn;
        eexists _, _, [_];
        (split; [reflexivity | split; [extends_now | repeat constructor]]).
    + eexists _, _, []. split; [reflexivity | split; [extends_now | constructor]].
Qed.

Lemma createJiraIssueFromTask_run (taskData : Task.t) (w : World) :
  exists o w' cs,
    run env (createJiraIssueFromTask taskData) w = (o, w') /\
    extends w w' cs /\
    Forall (fun c => c.1 = "mcp__atlassian__jira_create_issue") cs.
Proof.
  unfold createJiraIssueFromTask. cbn.
  destruct (extractProjectKeyFromTags _) as [projectKey|]; cbn.
  - destruct (Js.truthy projectKey); cbn.
    + destruct (mcp env _ _ _) as [e | [ | l | key]]; cbn;
        eexists _, _, [_];
        (split; [reflexivity | split; [extends_now | repeat constructor]]).
    + eexists _, _, []. split; [reflexivity | split; [extends_now | constructor]].
  - eexists _, _, []. split; [reflexivity | split; [extends_now | constructor]].
Qed.

Lemma searches_not_search (cs : list (string * payload)) :
  Forall not_search cs -> searches cs = [].
Proof.
  unfold searches. induction 1 as [|c cs Hc _ IH]; simpl; [reflexivity|].
  unfold is_tool at 1. destruct (String.eqb_spec c.1 "mcp__atlassian__jira_search");
    [contradiction | exact IH].
Qed.

Lemma searches_app (a b : list (string * payload)) :
  searches (a ++ b) = searches a ++ searches b.
Proof. apply List.filter_app. Qed.

Lemma searches_lookup (taskId : task_id) (cs : list (string * payload)) :
  searches (search_call taskId :: cs) = search_call taskId :: searches cs.
Proof. reflexivity. Qed.

Lemma Forall_tool_not_search (tool : string) (cs : list (string * payload)) :
  tool <> "mcp__atlassian__jira_search" ->
  Forall (fun c => c.1 = tool) cs -> Forall not_search cs.
Proof.
  intros Hne H. eapply Forall_impl; [exact H|].
  intros c Hc. unfold not_search. now rewrite Hc.
Qed.

(** A sync of one task looks the task up first, and that is its only
    lookup; it touches neither the locks nor the emitted events. *)
Lemma syncTaskToJira_run (taskData : Task.t) (projectKey : option string) (w : World) :
  exists o w' cs,
    run env (syncTaskToJira taskData projectKey) w = (o, w') /\
    extends w w' (search_call (Task.id taskData) :: cs) /\
    Forall not_search cs.
Proof.
  unfold syncTaskToJira. rewrite run_mbind.
  destruct (findJiraIssueForTask_run (Task.id taskData) w) as (r & w1 & -> & _ & E1).
  destruct r as [existingIssue|].
  - rewrite run_mbind.
    destruct (updateJiraIssueFromTask_run (Issue.key existingIssue) taskData w1)
      as (o & w2 & cs & -> & E2 & Hcs).
    pose proof (extends_trans _ _ _ _ _ E1 E2) as E.
    assert (Forall not_search
              (("mcp__atlassian__jira_update_issue",
                ("issue_key", VStr (Issue.key existingIssue))
                  :: mapTaskUpdatesToJiraFields taskData) :: cs)) as Hns.
    { constructor; [discriminate|].
      eapply Forall_tool_not_search; [|exact Hcs]. discriminate. }
    destruct o as [[] | e]; cbn.
    + eexists _, _, _. split; [reflexivity | split; [|exact Hns]].
      apply extends_console. exact E.
    + eexists _, _, _. split; [reflexivity | split; [exact E | exact Hns]].
  - rewrite run_mbind.
    destruct (createJiraIssueFromTask_run (with_project_tag projectKey taskData) w1)
      as (o & w2 & cs & -> & E2 & Hcs).
    pose proof (extends_trans _ _ _ _ _ E1 E2) as E.
    assert (Forall not_search cs) as Hns
      by (eapply Forall_tool_not_search; [|exact Hcs]; discriminate).
    destruct o as [key | e]; cbn.
    + eexists _, _, _. split; [reflexivity | split; [|exact Hns]].
      apply extends_console. exact E.
    + eexists _, _, _. split; [reflexivity | split; [exact E | exact Hns]].
Qed.

(** The loop body never throws: a rejected sync is logged and the loop
    goes on from the state the failed sync left. *)
Lemma sync_one_run (projectKey : string) (task : Task.t) (w : World) :
  run env (sync_one projectKey task) w =
  match run env (syncTaskToJira task (Some projectKey)) w with
  | (Fulfilled _, w') => (Fulfilled tt, w')
  | (RejectedWith e, w') =>
      (Fulfilled tt,
       logged LogError
         (("Failed to sync task " +:+ toString (Task.id task) +:+ " to project "
           +:+ projectKey +:+ ":") +:+ " " +:+ show_error e) w')
  end.
Proof.
  unfold sync_one. rewrite run_try_catch, run_mbind.
  destruct (run env (syncTaskToJira task (Some projectKey)) w) as [[t | e] w'];
    reflexivity.
Qed.

Lemma sync_one_extends (projectKey : string) (task : Task.t) (w : World) :
  exists w' cs,
    run env (sync_one projectKey task) w = (Fulfilled tt, w') /\
    extends w w' (search_call (Task.id task) :: cs) /\
    Forall not_search cs.
Proof.
  rewrite sync_one_run.
  destruct (syncTaskToJira_run task (Some projectKey) w) as (o & w' & cs & -> & E & Hcs).
  destruct o as [t | e]; eexists _, cs; (split; [reflexivity | split; [|exact Hcs]]);
    [exact E|].
  apply extends_console. exact E.
Qed.

Lemma sync_loop_run (projectKey : string) (tasks : list Task.t) (w : World) :
  exists w' cs,
    run env (for_each tasks (sync_one projectKey)) w = (Fulfilled tt, w') /\
    extends w w' cs /\
    searches cs = lookups tasks.
Proof.
  revert w. induction tasks as [|task tasks IH]; intros w; cbn [for_each].
  - exists w, []. split; [reflexivity | split; [apply extends_refl | reflexivity]].
  - rewrite run_bind.
    destruct (sync_one_extends projectKey task w) as (w1 & c1 & -> & E1 & H1).
    destruct (IH w1) as (w2 & c2 & -> & E2 & H2).
    eexists _, _. split; [reflexivity | split].
    + eapply extends_trans; eassumption.
    + rewrite searches_app, searches_lookup, (searches_not_search _ H1), H2.
      reflexivity.
Qed.

Lemma syncProjectTasks_run (projectKey : string) (tasks : list Task.t)
    (tagName : string) (w : World) :
  exists w' cs,
    run env (syncProjectTasks projectKey tasks tagName) w = (Fulfilled tt, w') /\
    extends w w' cs /\
    searches cs = lookups tasks.
Proof.
  unfold syncProjectTasks. rewrite run_mbind. cbn.
  match goal with
  | |- context [run env (for_each tasks _) ?w0] =>
      destruct (sync_loop_run projectKey tasks w0) as (w' & cs & -> & E & H)
  end.
  exists w', cs. split; [reflexivity | split; [|exact H]].
  eapply (extends_trans _ _ _ [] cs); [|exact E].
  apply extends_console, extends_refl.
Qed.

Lemma project_loop_run (entries : groups) (tagName : string) (w : World) :
  exists w' cs,
    run env (for_each entries (fun '(projectKey, projectTasks) =>
               syncProjectTasks projectKey projectTasks tagName)) w
    = (Fulfilled tt, w') /\
    extends w w' cs /\
    searches cs = lookups (flat_map snd entries).
Proof.
  revert w. induction entries as [|[projectKey projectTasks] entries IH]; intros w;
    cbn [for_each flat_map snd].
  - exists w, []. split; [reflexivity | split; [apply extends_refl | reflexivity]].
  - rewrite run_bind.
    destruct (syncProjectTasks_run projectKey projectTasks tagName w)
      as (w1 & c1 & -> & E1 & H1).
    destruct (IH w1) as (w2 & c2 & -> & E2 & H2).
    eexists _, _. split; [reflexivity | split].
    + eapply extends_trans; eassumption.
    + rewrite searches_app, H1, H2. unfold lookups. now rewrite map_app.
Qed.

End Forward.

(** ** Order of the project groups *)





Lemma group_of_In (k : string) (g : groups) (ts : list Task.t) :
  group_of k g = Some ts -> In (k, ts) g.
Proof.
  induction g as [|[k' ts'] g IH]; simpl; [discriminate|].
  destruct (String.eqb_spec k k') as [-> | _].
  - intros [= ->]. now left.
  - intros H. right. now apply IH.
Qed.


(** ** Tag sync *)



(** ** Task sync, twice *)

Lemma with_project_tag_id (projectKey : option string) (taskData : Task.t) :
  Task.id (with_project_tag projectKey taskData) = Task.id taskData.
Proof.
  unfold with_project_tag. repeat case_match; reflexivity.
Qed.

(** The task that a fulfilled sync hands back is the one it was given, up
    to the project tag pushed on the creation path. *)
Lemma syncTaskToJira_result (env : Env) (taskData taskData1 : Task.t)
    (projectKey : option string) (w w1 : World) :
  run env (syncTaskToJira taskData projectKey) w = (Fulfilled taskData1, w1) ->
  Task.id taskData1 = Task.id taskData.
Proof.
  unfold syncTaskToJira. rewrite run_mbind.
  destruct (findJiraIssueForTask_run env (Task.id taskData) w) as (r & w' & -> & _ & _).
  destruct r as [existingIssue|]; rewrite run_mbind.
  - destruct (run env (updateJiraIssueFromTask _ _) w') as [[[] | e] w2]; cbn.
    + now intros [= <- _].
    + discriminate.
  - destruct (run env (createJiraIssueFromTask _) w') as [[key | e] w2]; cbn.
    + intros [= <- _]. apply with_project_tag_id.
    + discriminate.
Qed.

Lemma create_calls_app (w : World) (cs : list (string * payload)) (w' : World) :
  mcp_calls w' = mcp_calls w ++ cs ->
  Forall (fun c => c.1 <> "mcp__atlassian__jira_create_issue") cs ->
  create_calls w' = create_calls w.
Proof.
  unfold create_calls, calls_of. intros -> H.
  rewrite List.filter_app.
  replace (List.filter _ cs) with (@nil (string * payload)); [apply app_nil_r|].
  induction H as [|c cs Hc _ IH]; simpl; [reflexivity|].
  unfold is_tool at 1.
  destruct (String.eqb_spec c.1 "mcp__atlassian__jira_create_issue");
    [contradiction | exact IH].
Qed.

(** C4. Let a first task sync of a task complete, having created one
    issue, and let the lookup of the second sync return an issue (the one
    the first sync created, since nothing else changed on the tracker).
    Then the second sync, run on the task as the first left it, sends the
    lookup, then an update of that very issue, then at most a status
    transition: it creates nothing, and the creations on record are still
    the single one of the first sync. *)
Theorem second_sync_updates (env : Env) (w0 w1 : World)
    (taskData taskData1 : Task.t) (projectKey1 projectKey2 : option string)
    (created : string * payload) (existingIssue : Issue.t) (rest : list Issue.t) :
  run env (syncTaskToJira taskData projectKey1) w0 = (Fulfilled taskData1, w1) ->
  create_calls w1 = create_calls w0 ++ [created] ->
  mcp env (mcp_calls w1) (search_call (Task.id taskData)).1
      (search_call (Task.id taskData)).2
  = inr (RIssues (existingIssue :: rest)) ->
  let r := run env (syncTaskToJira taskData1 projectKey2) w1 in
  create_calls r.2 = create_calls w0 ++ [created] /\
  exists cs,
    mcp_calls r.2
    = mcp_calls w1 ++
      search_call (Task.id taskData)
      :: ("mcp__atlassian__jira_update_issue",
          ("issue_key", VStr (Issue.key existingIssue))
            :: mapTaskUpdatesToJiraFields taskData1)
      :: cs /\
    Forall (fun c => c.1 = "mcp__atlassian__jira_transition_issue") cs.
Proof.
  intros Hfirst Hcreated Hlookup. cbv zeta.
  apply syncTaskToJira_result in Hfirst as Hid.
  unfold syncTaskToJira. rewrite run_mbind.
  destruct (findJiraIssueForTask_run env (Task.id taskData1) w1)
    as (r & w2 & -> & Hr & E1).
  rewrite Hid, Hlookup in Hr. subst r. rewrite run_mbind.
  destruct (updateJiraIssueFromTask_run env (Issue.key existingIssue) taskData1 w2)
    as (o & w3 & cs & -> & E2 & Hcs).
  pose proof (extends_trans _ _ _ _ _ E1 E2) as E. rewrite Hid in E.
  assert (Hcalls : forall w4, extends w1 w4
                      ([search_call (Task.id taskData)] ++
                       ("mcp__atlassian__jira_update_issue",
                        ("issue_key", VStr (Issue.key existingIssue))
                          :: mapTaskUpdatesToJiraFields taskData1) :: cs) ->
            create_calls w4 = create_calls w0 ++ [created] /\
            exists cs0,
              mcp_calls w4
              = mcp_calls w1 ++
                search_call (Task.id taskData)
                :: ("mcp__atlassian__jira_update_issue",
                    ("issue_key", VStr (Issue.key existingIssue))
                      :: mapTaskUpdatesToJiraFields taskData1)
                :: cs0 /\
              Forall (fun c => c.1 = "mcp__atlassian__jira_transition_issue") cs0).
  { intros w4 (_ & _ & _ & Hm & _). split.
    - rewrite <- Hcreated. eapply create_calls_app; [exact Hm|].
      repeat constructor; try discriminate.
      eapply Forall_impl; [exact Hcs|]. intros [tool args] Hc Heq.
      simpl in Hc, Heq. subst tool. discriminate Heq.
    - exists cs. split; [exact Hm | exact Hcs]. }
  destruct o as [[] | e]; cbn.
  - apply Hcalls. exact E.
  - apply Hcalls. exact E.
Qed.

(** Two syncs of the task of the creation scenario against
    [sample_env]: the first creates [PROJ-1], the second updates it. *)
Lemma second_sync_updates_witness :
  let w0 := initial_world FileMissing in
  let first := run sample_env (syncTaskToJira fix_bug_task None) w0 in
  let second := run sample_env (syncTaskToJira fix_bug_task None) first.2 in
  first.1 = Fulfilled fix_bug_task /\
  mcp_calls first.2
  = [search_call (IdStr "t-1");
     ("mcp__atlassian__jira_create_issue", mapTaskToJiraFields fix_bug_task "PROJ")] /\
  create_calls second.2
  = [("mcp__atlassian__jira_create_issue", mapTaskToJiraFields fix_bug_task "PROJ")] /\
  exists cs,
    mcp_calls second.2
    = mcp_calls first.2 ++
      search_call (IdStr "t-1")
      :: ("mcp__atlassian__jira_update_issue",
          ("issue_key", VStr "PROJ-1") :: mapTaskUpdatesToJiraFields fix_bug_task)
      :: cs /\
    Forall (fun c => c.1 = "mcp__atlassian__jira_transition_issue") cs.
Proof.
  cbv zeta. split; [reflexivity | split; [reflexivity|]].
  apply (second_sync_updates sample_env (initial_world FileMissing)
           (run sample_env (syncTaskToJira fix_bug_task None)
              (initial_world FileMissing)).2
           fix_bug_task fix_bug_task None None
           ("mcp__atlassian__jira_create_issue", mapTaskToJiraFields fix_bug_task "PROJ")
           (Issue.mk "PROJ-1" None) []); reflexivity.
Defined.

(** ** Concurrent tag syncs *)

(** C9 (what the code does). An invocation of tag sync that finds
    [tag:<name>] held makes no call, logs nothing and emits nothing, but its
    [finally] block still deletes the key, which it never acquired: the
    lock of the invocation in flight is gone.  So with a first invocation
    awaiting its first call, a second one returns at once and a third one,
    started before the first resumes, acquires the key again and does the
    batch work too: both look the task up before either creates, and the
    same issue is created twice. *)
Theorem concurrent_tag_sync_duplicates :
  (forall env w tagName tasks,
     syncEnabled w = true ->
     ("tag:" +:+ tagName) ∈ syncLocks w ->
     Interleaving.resume env (handleTagUpdate tagName tasks) w
     = (Interleaving.Settled (Fulfilled tt),
        with_locks (syncLocks w ∖ {["tag:" +:+ tagName]}) w)) /\
  (let st := Interleaving.schedule sample_env [0%nat] three_tag_syncs in
   (Interleaving.in_flight <$> (st.1 !! 0%nat)) = Some true /\
   ("tag:master" ∈ syncLocks st.2) /\
   mcp_calls st.2 = []) /\
  (let st := Interleaving.schedule sample_env [0; 1]%nat three_tag_syncs in
   (Interleaving.in_flight <$> (st.1 !! 0%nat)) = Some true /\
   st.1 !! 1%nat = Some (Interleaving.Settled (Fulfilled tt)) /\
   ("tag:master" ∉ syncLocks st.2) /\
   mcp_calls st.2 = [] /\ emitted st.2 = []) /\
  (let st := Interleaving.schedule sample_env racing_order three_tag_syncs in
   map Interleaving.in_flight st.1 = [false; false; false] /\
   map fst (mcp_calls st.2)
   = ["mcp__atlassian__jira_search"; "mcp__atlassian__jira_search";
      "mcp__atlassian__jira_create_issue"; "mcp__atlassian__jira_create_issue"] /\
   create_calls st.2
   = [("mcp__atlassian__jira_create_issue", mapTaskToJiraFields fix_bug_task "PROJ");
      ("mcp__atlassian__jira_create_issue", mapTaskToJiraFields fix_bug_task "PROJ")] /\
   emitted st.2 = [TagSynced "master" 1; TagSynced "master" 1]).
Proof.
  split; [|split; [|split]].
  - intros env w tagName tasks Hen Hheld. unfold handleTagUpdate. cbn.
    rewrite Hen. cbn. rewrite bool_decide_eq_true_2 by exact Hheld. reflexivity.
  - cbv zeta. split; [vm_compute; reflexivity | split; [|vm_compute; reflexivity]].
    match goal with
    | |- ?P => assert (H : bool_decide P = true) by (vm_compute; reflexivity)
    end.
    now apply bool_decide_eq_true_1 in H.
  - cbv zeta.
    split; [vm_compute; reflexivity|].
    split; [vm_compute; reflexivity|].
    split; [|split; vm_compute; reflexivity].
    match goal with
    | |- ¬ ?P => assert (H : bool_decide P = false) by (vm_compute; reflexivity)
    end.
    now apply bool_decide_eq_false_1 in H.
  - cbv zeta. repeat split; vm_compute; reflexivity.
Qed.

(** * Further properties *)

(** ** The field mappers as a whole *)


Lemma upper_lower_upper_ascii (c : ascii) :
  Js.upper_ascii (Js.lower_ascii (Js.upper_ascii c)) = Js.upper_ascii c.
Proof.
  destruct c as [[] [] [] [] [] [] [] []]; reflexivity.
Qed.


Lemma toUpperCase_lower_upper (s : string) :
  Js.toUpperCase (Js.toLowerCase (Js.toUpperCase s)) = Js.toUpperCase s.
Proof.
  unfold Js.toLowerCase, Js.toUpperCase.
  induction s as [|c s IH]; cbn [Js.map_string]; [reflexivity|].
  now rewrite upper_lower_upper_ascii, IH.
Qed.

(** X1. The two priority mappings are inverse to each other on the five
    priorities, and the status mappings, read from Jira to task and back,
    return To Do, In Progress, Review and Done, while Closed comes back as
    Done. *)
Theorem priority_round_trip :
  (forall p, In p ["highest"; "high"; "medium"; "low"; "lowest"] ->
     mapJiraPriorityToTaskPriority (mapTaskPriorityToJiraPriority (Some p)) = p) /\
  (forall p, In p ["Highest"; "High"; "Medium"; "Low"; "Lowest"] ->
     mapTaskPriorityToJiraPriority (Some (mapJiraPriorityToTaskPriority p)) = p) /\
  (forall s, In s ["To Do"; "In Progress"; "Review"; "Done"] ->
     mapTaskStatusToJiraStatus (Some (mapJiraStatusToTaskStatus s)) = s) /\
  mapTaskStatusToJiraStatus (Some (mapJiraStatusToTaskStatus "Closed")) = "Done".
Proof.
  repeat split.
  - intros p Hp. simpl in Hp.
    destruct Hp as [<- | [<- | [<- | [<- | [<- | []]]]]]; reflexivity.
  - intros p Hp. simpl in Hp.
    destruct Hp as [<- | [<- | [<- | [<- | [<- | []]]]]]; reflexivity.
  - intros s Hs. simpl in Hs.
    destruct Hs as [<- | [<- | [<- | [<- | []]]]]; reflexivity.
Qed.




(** ** The groups of [groupTasksByProject] *)

Lemma group_of_push_same (k : string) (x : Task.t) (g : groups) :
  group_of k (push_group k x g) = Some (default [] (group_of k g) ++ [x]).
Proof.
  induction g as [|[k' ts] g IH]; simpl.
  - now rewrite String.eqb_refl.
  - destruct (String.eqb_spec k k') as [-> | Hne]; simpl.
    + now rewrite String.eqb_refl.
    + destruct (String.eqb_spec k k') as [-> | _]; [contradiction | exact IH].
Qed.

Lemma group_of_push_other (k k' : string) (x : Task.t) (g : groups) :
  k <> k' -> group_of k (push_group k' x g) = group_of k g.
Proof.
  intros Hne. induction g as [|[k0 ts] g IH]; simpl.
  - destruct (String.eqb_spec k k') as [-> | _]; [contradiction | reflexivity].
  - destruct (String.eqb_spec k' k0) as [-> | Hne']; simpl.
    + destruct (String.eqb_spec k k0) as [-> | _]; [contradiction | reflexivity].
    + destruct (String.eqb_spec k k0); [reflexivity | exact IH].
Qed.

Lemma group_of_step (k : string) (x : Task.t) (g : groups) :
  Js.truthy k = true ->
  group_of k (group_step g x)
  = if keyed k x then Some (default [] (group_of k g) ++ [x]) else group_of k g.
Proof.
  intros Hk. unfold group_step, keyed.
  destruct (extractProjectKeyFromTask x) as [pk|].
  - destruct (decide (pk = k)) as [-> | Hne].
    + rewrite Hk, bool_decide_eq_true_2 by reflexivity. apply group_of_push_same.
    + rewrite bool_decide_eq_false_2 by congruence.
      destruct (Js.truthy pk); [|reflexivity].
      apply group_of_push_other. congruence.
  - now rewrite bool_decide_eq_false_2 by discriminate.
Qed.

Lemma group_of_fold (k : string) (tasks : list Task.t) (g : groups) :
  Js.truthy k = true ->
  group_of k (fold_left group_step tasks g)
  = match List.filter (keyed k) tasks with
    | [] => group_of k g
    | ts => Some (default [] (group_of k g) ++ ts)
    end.
Proof.
  intros Hk. revert g. induction tasks as [|x tasks IH]; intros g; simpl.
  - reflexivity.
  - rewrite IH, group_of_step by exact Hk.
    destruct (keyed k x); simpl.
    + destruct (List.filter (keyed k) tasks); simpl; [reflexivity|].
      now rewrite <- app_assoc.
    + reflexivity.
Qed.

Lemma push_group_keys (k : string) (x : Task.t) (g : groups) :
  map fst (push_group k x g)
  = if bool_decide (k ∈ map fst g) then map fst g else map fst g ++ [k].
Proof.
  induction g as [|[k' ts] g IH]; cbn [map push_group fst].
  - rewrite bool_decide_eq_false_2; [reflexivity | apply not_elem_of_nil].
  - destruct (String.eqb_spec k k') as [-> | Hne]; cbn [map fst].
    + now rewrite bool_decide_eq_true_2 by apply list_elem_of_here.
    + rewrite IH. destruct (bool_decide_reflect (k ∈ map fst g)) as [Hin | Hin].
      * now rewrite bool_decide_eq_true_2 by now apply list_elem_of_further.
      * rewrite bool_decide_eq_false_2; [reflexivity|].
        intros [? | ?]%elem_of_cons; contradiction.
Qed.

Lemma push_group_NoDup (k : string) (x : Task.t) (g : groups) :
  NoDup (map fst g) -> NoDup (map fst (push_group k x g)).
Proof.
  intros H. rewrite push_group_keys.
  destruct (bool_decide_reflect (k ∈ map fst g)) as [Hin | Hin]; [exact H|].
  apply NoDup_app. split; [exact H | split].
  - intros y Hy ->%list_elem_of_singleton. contradiction.
  - apply NoDup_singleton.
Qed.

Lemma push_group_truthy (k : string) (x : Task.t) (g : groups) :
  Js.truthy k = true ->
  Forall (fun e => Js.truthy e.1 = true /\ e.2 <> []) g ->
  Forall (fun e => Js.truthy e.1 = true /\ e.2 <> []) (push_group k x g).
Proof.
  intros Hk H. induction H as [|[k' ts] g [H1 H2] Hg IH]; simpl.
  - constructor; [split; [exact Hk | discriminate] | constructor].
  - simpl in H1, H2. destruct (String.eqb k k').
    + constructor; [split; [exact H1 | now destruct ts] | exact Hg].
    + constructor; [now split | exact IH].
Qed.

Lemma group_fold_invariant (tasks : list Task.t) (g : groups) :
  NoDup (map fst g) /\
  Forall (fun e => Js.truthy e.1 = true /\ e.2 <> []) g ->
  NoDup (map fst (fold_left group_step tasks g)) /\
  Forall (fun e => Js.truthy e.1 = true /\ e.2 <> []) (fold_left group_step tasks g).
Proof.
  revert g. induction tasks as [|x tasks IH]; intros g [H1 H2]; simpl; [now split|].
  apply IH. unfold group_step.
  destruct (extractProjectKeyFromTask x) as [pk|]; [|now split].
  destruct (Js.truthy pk) eqn:Hpk; [|now split].
  split; [now apply push_group_NoDup | now apply push_group_truthy].
Qed.

(** X4. [groupTasksByProject] puts under a non-empty key exactly the tasks
    of the batch with that project key, in the order of the batch, and has
    no group for a key that no task has; the keys of its groups are
    pairwise different and non-empty and no group is empty.  A task without
    a project key, or with the empty key of a tag [cc-dev:], is in no
    group. *)
Theorem groups_by_key (tasks : list Task.t) :
  (forall k, Js.truthy k = true ->
     group_of k (groupTasksByProject tasks)
     = match List.filter (keyed k) tasks with
       | [] => None
       | ts => Some ts
       end) /\
  NoDup (map fst (groupTasksByProject tasks)) /\
  Forall (fun e => Js.truthy e.1 = true /\ e.2 <> []) (groupTasksByProject tasks) /\
  (forall task k, in_group k task (groupTasksByProject tasks) ->
     In task tasks /\ extractProjectKeyFromTask task = Some k /\ Js.truthy k = true).
Proof.
  pose proof (group_fold_invariant tasks [] (conj (NoDup_nil_2) (Forall_nil_2 _)))
    as [Hnd Hall].
  split; [|split; [exact Hnd | split; [exact Hall|]]].
  - intros k Hk. unfold groupTasksByProject. now rewrite group_of_fold.
  - intros task k (ts & Hg & Hin).
    assert (Hk : Js.truthy k = true).
    { apply group_of_In in Hg. fold (groupTasksByProject tasks) in Hall.
      rewrite List.Forall_forall in Hall. now apply (Hall (k, ts)). }
    unfold groupTasksByProject in Hg. rewrite group_of_fold in Hg by exact Hk.
    simpl in Hg.
    destruct (List.filter (keyed k) tasks) as [|t0 ts0] eqn:Hf; [discriminate|].
    injection Hg as <-. rewrite <- Hf in Hin.
    apply List.filter_In in Hin as [Hin Hkey].
    unfold keyed in Hkey. apply bool_decide_eq_true_1 in Hkey. now repeat split.
Qed.

(** Two projects, the default group and a task that is in no group. *)
Lemma groups_by_key_witness :
  let batch := [fix_bug_task; jira_tagged_task; unnamed_project_task;
                other_project_task; second_task] in
  group_of "PROJ" (groupTasksByProject batch) = Some [fix_bug_task; second_task] /\
  group_of "ADAPT" (groupTasksByProject batch) = Some [jira_tagged_task] /\
  group_of "LEGACY" (groupTasksByProject batch) = None /\
  extractProjectKeyFromTask unnamed_project_task = Some "" /\
  ~ In unnamed_project_task (flat_map snd (groupTasksByProject batch)).
Proof.
  cbv zeta.
  destruct (groups_by_key [fix_bug_task; jira_tagged_task; unnamed_project_task;
                           other_project_task; second_task])
    as (Hg & _ & _ & Hin).
  split; [now rewrite Hg | split; [now rewrite Hg | split; [now rewrite Hg|]]].
  split; [reflexivity|].
  intros H. apply in_flat_map in H as ([k ts] & He & Ht).
  destruct (Hin unnamed_project_task k) as (_ & Hk & Htr).
  - exists ts. split; [|exact Ht]. simpl in He.
    destruct He as [[= <- <-] | [[= <- <-] | [[= <- <-] | []]]]; reflexivity.
  - injection Hk as <-. discriminate.
Defined.

(** ** JiraService: lookup, creation, update *)

(** X5. [findJiraIssueForTask] never rejects: when the search call fails,
    or answers with anything but a non-empty array, the result is [null].
    [syncTaskToJira] then takes the creation path: when the task (with the
    project tag pushed) has a non-empty project key, the call after the
    lookup is the creation of an issue for it. *)
Theorem failed_lookup_creates (env : Env) (w : World) (taskData : Task.t)
    (projectKey : option string) (k : string) :
  finds_issue (answer env w (search_call (Task.id taskData))) = false ->
  extractProjectKeyFromTags
    (default [] (Task.tags (with_project_tag projectKey taskData))) = Some k ->
  Js.truthy k = true ->
  (run env (findJiraIssueForTask (Task.id taskData)) w).1 = Fulfilled None /\
  mcp_calls (run env (syncTaskToJira taskData projectKey) w).2
  = mcp_calls w ++
    [search_call (Task.id taskData);
     create_call (with_project_tag projectKey taskData) k].
Proof.
  unfold finds_issue, answer, search_call. cbn [fst snd].
  intros Hfind Hkey Hk. split.
  - unfold findJiraIssueForTask. cbn.
    destruct (mcp env (mcp_calls w) _ _) as [e | [ | [|issue l] | key]];
      try discriminate; reflexivity.
  - unfold syncTaskToJira, findJiraIssueForTask, createJiraIssueFromTask, create_call.
    cbn.
    destruct (mcp env (mcp_calls w) _ _) as [e | [ | [|issue l] | key]];
      try discriminate; cbn; rewrite Hkey; cbn; rewrite Hk; cbn;
      destruct (mcp env _ _ _) as [e' | [ | l' | key']]; cbn;
      now rewrite <- app_assoc.
Qed.

(** With lookups timing out, the task of the creation scenario is created
    again. *)
Lemma failed_lookup_creates_witness :
  (run offline_env (findJiraIssueForTask (IdStr "t-1")) (initial_world FileMissing)).1
  = Fulfilled None /\
  mcp_calls (run offline_env (syncTaskToJira fix_bug_task None)
               (initial_world FileMissing)).2
  = [search_call (IdStr "t-1"); create_call fix_bug_task "PROJ"].
Proof.
  apply (failed_lookup_creates offline_env (initial_world FileMissing)
           fix_bug_task None "PROJ"); reflexivity.
Defined.

(** X6. [createJiraIssueFromTask] calls the tracker only with a project
    key: when the first [cc-dev:] tag of the task gives none, or the task
    has no such tag, it throws [No project key found] and sends nothing.
    Otherwise it sends one creation with the payload of
    [mapTaskToJiraFields]; it is fulfilled with the key of the answer, and
    rejected when the call is rejected or answers with nothing. *)
Theorem creation_contract (env : Env) (w : World) (taskData : Task.t) :
  let r := run env (createJiraIssueFromTask taskData) w in
  match extractProjectKeyFromTags (default [] (Task.tags taskData)) with
  | Some projectKey =>
      if Js.truthy projectKey then
        mcp_calls r.2 = mcp_calls w ++ [create_call taskData projectKey] /\
        r.1 = match answer env w (create_call taskData projectKey) with
              | inl e => RejectedWith e
              | inr RNull =>
                  RejectedWith
                    (TypeError "Cannot read properties of null (reading 'key')")
              | inr (RObject key) => Fulfilled key
              | inr (RIssues _) => Fulfilled None
              end
      else
        mcp_calls r.2 = mcp_calls w /\
        r.1 = RejectedWith (JsError ("No project key found in task tags: "
                                     +:+ show_tags (Task.tags taskData)))
  | None =>
      mcp_calls r.2 = mcp_calls w /\
      r.1 = RejectedWith (JsError ("No project key found in task tags: "
                                   +:+ show_tags (Task.tags taskData)))
  end.
Proof.
  cbv zeta. unfold createJiraIssueFromTask, answer, create_call. cbn.
  destruct (extractProjectKeyFromTags _) as [projectKey|]; cbn.
  - destruct (Js.truthy projectKey); cbn.
    + destruct (mcp env _ _ _) as [e | [ | l | key]]; cbn; split; reflexivity.
    + split; reflexivity.
  - split; reflexivity.
Qed.

(** X7. [updateJiraIssueFromTask] succeeds exactly when its
    [jira_update_issue] call does: a rejected update is rethrown and no
    transition follows, while a rejected status transition is only a
    warning on the console. *)
Theorem update_outcome (env : Env) (w : World) (issueKey : string)
    (taskData : Task.t) :
  let r := run env (updateJiraIssueFromTask issueKey taskData) w in
  match answer env w (update_call issueKey taskData) with
  | inl e =>
      r.1 = RejectedWith e /\
      mcp_calls r.2 = mcp_calls w ++ [update_call issueKey taskData]
  | inr _ =>
      r.1 = Fulfilled tt /\
      (Js.truthy_opt (Task.status taskData) = true ->
       forall e,
         answer env (called [update_call issueKey taskData] w)
                (transition_call issueKey taskData) = inl e ->
         In (LogWarn, "Could not update status for " +:+ issueKey +:+ ": "
                      +:+ show_error e) (console r.2))
  end.
Proof.
  cbv zeta. unfold updateJiraIssueFromTask, updateJiraIssueStatus, answer,
    update_call, transition_call, called. cbn.
  destruct (mcp env (mcp_calls w) _ _) as [e | r]; cbn; [split; reflexivity|].
  destruct (Js.truthy_opt (Task.status taskData)); cbn.
  - destruct (mcp env _ _ _) as [e' | r']; cbn; (split; [reflexivity|]).
    + intros _ e [= <-]. rewrite !in_app_iff. simpl. tauto.
    + intros _ e [=].
  - split; [reflexivity | discriminate].
Qed.

(** An update of [PROJ-1] on a tracker that refuses the transition. *)
Lemma update_outcome_witness :
  let r := run strict_workflow_env (updateJiraIssueFromTask "PROJ-1" fix_bug_task)
             (initial_world FileMissing) in
  r.1 = Fulfilled tt /\
  In (LogWarn, "Could not update status for PROJ-1: Transition not allowed")
     (console r.2).
Proof.
  cbv zeta.
  pose proof (update_outcome strict_workflow_env (initial_world FileMissing)
                "PROJ-1" fix_bug_task) as [H1 H2].
  split; [exact H1|].
  exact (H2 eq_refl (Rejected "Transition not allowed") eq_refl).
Defined.

(** ** The engine on the MCP client of the bootstrap *)

Lemma payload_truthy_of_opt (x : option string) :
  payload_truthy (Some (of_opt x)) = Js.truthy_opt x.
Proof. now destruct x. Qed.

Lemma bundled_create (issueNumber : nat -> Z) (history : list (string * payload))
    (taskData : Task.t) (k : string) :
  bundled_mcp issueNumber history (create_call taskData k).1 (create_call taskData k).2
  = if Js.truthy k && Js.truthy_opt (Js.or (Task.title taskData) (Task.summary taskData))
    then inr (RObject (Some (k +:+ "-" +:+ Js.show_Z (issueNumber (length history)))))
    else inl (JsError "Missing required parameters: project_key and summary").
Proof.
  unfold bundled_mcp, create_call, mapTaskToJiraFields.
  cbn [fst snd prop String.eqb Ascii.eqb Bool.eqb].
  rewrite payload_truthy_of_opt. cbn [payload_truthy payload_string].
  destruct (Js.truthy k), (Js.truthy_opt _); reflexivity.
Qed.

Lemma bundled_search (issueNumber : nat -> Z) (history : list (string * payload))
    (params : payload) :
  bundled_mcp issueNumber history "mcp__atlassian__jira_search" params
  = inr (RObject None).
Proof. reflexivity. Qed.

Lemma bundled_sync (issueNumber : nat -> Z) (w : World) (taskData : Task.t)
    (projectKey : option string) (k : string) :
  extractProjectKeyFromTags
    (default [] (Task.tags (with_project_tag projectKey taskData))) = Some k ->
  Js.truthy k = true ->
  exists c,
    run (bundled_env issueNumber) (syncTaskToJira taskData projectKey) w
    = (match bundled_mcp issueNumber (mcp_calls w ++ [search_call (Task.id taskData)])
               (create_call (with_project_tag projectKey taskData) k).1
               (create_call (with_project_tag projectKey taskData) k).2 with
       | inl e => RejectedWith e
       | inr _ => Fulfilled (with_project_tag projectKey taskData)
       end,
       mkWorld (syncEnabled w) (syncLocks w) c (emitted w) (S (S (rate_limited w)))
               (mcp_calls w ++ [search_call (Task.id taskData);
                                create_call (with_project_tag projectKey taskData) k])
               (tasks_file w) (file_writes w)).
Proof.
  intros Hkey Hk.
  rewrite bundled_create, Hk. cbn [andb].
  unfold syncTaskToJira, findJiraIssueForTask, createJiraIssueFromTask.
  cbn -[bundled_mcp mapTaskToJiraFields]. rewrite bundled_search.
  cbn -[bundled_mcp mapTaskToJiraFields]. rewrite Hkey.
  cbn -[bundled_mcp mapTaskToJiraFields]. rewrite Hk.
  cbn -[bundled_mcp mapTaskToJiraFields].
  pose proof (bundled_create issueNumber
                (mcp_calls w ++ [search_call (Task.id taskData)])
                (with_project_tag projectKey taskData) k) as Hc.
  rewrite Hk in Hc. cbn [andb] in Hc.
  match goal with
  | |- context [bundled_mcp ?a ?b ?c ?d] =>
      replace (bundled_mcp a b c d) with
        (if Js.truthy_opt
              (Js.or (Task.title (with_project_tag projectKey taskData))
                     (Task.summary (with_project_tag projectKey taskData)))
         then inr (RObject (Some (k +:+ "-" +:+
                 Js.show_Z (issueNumber
                   (length (mcp_calls w ++ [search_call (Task.id taskData)]))))))
         else @inl error response
                (JsError "Missing required parameters: project_key and summary"))
        by (symmetry; exact Hc)
  end.
  destruct (Js.truthy_opt _); cbn; eexists; f_equal; f_equal;
    first [reflexivity | now rewrite <- app_assoc].
Qed.

(** X8. The MCP client that the bootstrap installs answers a search with an
    object that is no array, so on it no lookup ever finds an issue: a task
    sync of a task with a title and a project key always creates an issue,
    and two syncs of the same task in sequence create two.  A task with
    neither title nor summary is refused by that client. *)
Theorem bundled_client_duplicates (issueNumber : nat -> Z) (w : World)
    (taskData : Task.t) (k : string) :
  extractProjectKeyFromTags (default [] (Task.tags taskData)) = Some k ->
  Js.truthy k = true ->
  let env := bundled_env issueNumber in
  let first := run env (syncTaskToJira taskData None) w in
  let second := run env (syncTaskToJira taskData None) first.2 in
  (forall history taskId,
     finds_issue (bundled_mcp issueNumber history (search_call taskId).1
                              (search_call taskId).2) = false) /\
  (Js.truthy_opt (Js.or (Task.title taskData) (Task.summary taskData)) = true ->
   first.1 = Fulfilled taskData /\ second.1 = Fulfilled taskData /\
   create_calls second.2
   = create_calls w ++ [create_call taskData k; create_call taskData k]) /\
  (Js.truthy_opt (Js.or (Task.title taskData) (Task.summary taskData)) = false ->
   first.1 = RejectedWith
               (JsError "Missing required parameters: project_key and summary")).
Proof.
  intros Hkey Hk. cbv zeta. split; [reflexivity|].
  destruct (bundled_sync issueNumber w taskData None k Hkey Hk) as [c1 H1].
  rewrite H1. cbn [fst snd].
  match goal with
  | |- context [run _ _ ?w1] =>
      destruct (bundled_sync issueNumber w1 taskData None k Hkey Hk) as [c2 H2]
  end.
  rewrite H2. cbn [fst snd mcp_calls with_project_tag].
  rewrite !bundled_create, Hk. cbn [andb]. split.
  - intros ->. repeat split.
    unfold create_calls, calls_of. cbn [mcp_calls].
    rewrite !List.filter_app. cbn. now rewrite <- app_assoc.
  - intros ->. reflexivity.
Qed.

(** The task of the creation scenario synced twice on the bundled client
    (with issue numbers 7 and then 8), and a task without a title. *)
Lemma bundled_client_duplicates_witness :
  let env := bundled_env (fun n => Z.of_nat n + 6) in
  let w := initial_world FileMissing in
  let second :=
    run env (syncTaskToJira fix_bug_task None)
        (run env (syncTaskToJira fix_bug_task None) w).2 in
  create_calls second.2
  = [create_call fix_bug_task "PROJ"; create_call fix_bug_task "PROJ"] /\
  (run env (syncTaskToJira untitled_task None) w).1
  = RejectedWith (JsError "Missing required parameters: project_key and summary").
Proof.
  cbv zeta. split.
  - apply (bundled_client_duplicates (fun n => Z.of_nat n + 6)
             (initial_world FileMissing) fix_bug_task "PROJ"); reflexivity.
  - apply (bundled_client_duplicates (fun n => Z.of_nat n + 6)
             (initial_world FileMissing) untitled_task "PROJ"); reflexivity.
Defined.

(** ** The token bucket of [applyRateLimit] *)

Import RateLimiter.

(** X9. Whatever state a limiter is in and whatever the clock says, after
    [applyRateLimit] it holds between 0 and [burst] tokens (for a burst of
    at least one), it is stamped with the time of the call, a call that had
    to wait leaves exactly one token, and a wait lasts [retryAfter].  The
    limiters of the other services are not touched, and a service without a
    limiter is let through at once. *)
Theorem rate_limit_invariant (service : string) (now : Z)
    (rateLimiters : gmap string limiter) :
  let r := applyRateLimit service now rateLimiters in
  (forall other, other <> service -> r.1 !! other = rateLimiters !! other) /\
  (rateLimiters !! service = None -> r = (rateLimiters, None)) /\
  (forall l, rateLimiters !! service = Some l -> 1 <= burst (cfg l) ->
     exists l',
       r.1 !! service = Some l' /\
       0 <= tokens l' <= burst (cfg l) /\
       lastRefill l' = now /\ cfg l' = cfg l /\
       (r.2 = None \/ (r.2 = Some (retryAfter (cfg l)) /\ tokens l' = 1))).
Proof.
  cbv zeta. unfold applyRateLimit. repeat split.
  - intros other Hne. destruct (rateLimiters !! service) as [l|] eqn:Hl; [|reflexivity].
    destruct (refill l now) as [l' pause]. simpl. now rewrite lookup_insert_ne.
  - now intros ->.
  - intros l -> Hb. unfold refill.
    destruct (Z.leb_spec (Z.min (burst (cfg l))
                (tokens l + (now - lastRefill l) / (1000 / requestsPerSecond (cfg l)))) 0)
      as [Hle | Hgt]; simpl; rewrite lookup_insert_eq; eexists; (split; [reflexivity|]); simpl.
    + repeat split; try lia. right. now split.
    + repeat split; try lia. now left.
Qed.

(** The limiter of [jira] after one call, one second after start-up. *)
Lemma rate_limit_invariant_witness :
  let r := applyRateLimit "jira" 1000 (initializeRateLimiters 0) in
  exists l',
    r.1 !! "jira" = Some l' /\ 0 <= tokens l' <= 20 /\ lastRefill l' = 1000 /\
    r.1 !! "jsm" = initializeRateLimiters 0 !! "jsm".
Proof.
  cbv zeta.
  destruct (rate_limit_invariant "jira" 1000 (initializeRateLimiters 0))
    as (Hother & _ & Hl).
  destruct (Hl (mkLimiter 20 0 (mkConfig 10 20 5000)) eq_refl) as (l' & H1 & H2 & H3 & _);
    [simpl; lia|].
  exists l'. repeat split; trivial; try apply H2; now apply Hother.
Defined.

Lemma calls_at_once (service : string) (t : Z) (n : nat)
    (m : gmap string limiter) (l : limiter) :
  m !! service = Some l ->
  lastRefill l = t ->
  tokens l <= burst (cfg l) ->
  Z.of_nat n <= tokens l ->
  calls service (replicate n t) m
  = (<[service := mkLimiter (tokens l - Z.of_nat n) t (cfg l)]> m, replicate n None).
Proof.
  revert m l. induction n as [|n IH]; intros m l Hm Ht Hb Hn.
  - simpl. f_equal. symmetry. apply insert_id. rewrite Hm. f_equal.
    destruct l as [tk lr c]. simpl in *. subst. f_equal. lia.
  - cbn [replicate calls]. unfold applyRateLimit at 1. rewrite Hm.
    unfold refill. rewrite Ht, Z.sub_diag, Zdiv_0_l, Z.add_0_r.
    rewrite Z.min_r by exact Hb.
    destruct (Z.leb_spec (tokens l) 0) as [Hle | Hgt]; [exfalso; lia|].
    rewrite (IH _ (mkLimiter (tokens l - 1) t (cfg l)));
      [| apply lookup_insert_eq | reflexivity | cbn; lia | cbn; lia].
    cbn [tokens cfg]. rewrite insert_insert_eq.
    replace (tokens l - 1 - Z.of_nat n) with (tokens l - Z.of_nat (S n)) by lia.
    reflexivity.
Qed.

Lemma calls_app (service : string) (ts1 ts2 : list Z) (m : gmap string limiter) :
  calls service (ts1 ++ ts2) m
  = let (m1, p1) := calls service ts1 m in
    let (m2, p2) := calls service ts2 m1 in
    (m2, p1 ++ p2).
Proof.
  revert m. induction ts1 as [|t ts1 IH]; intros m; simpl.
  - now destruct (calls service ts2 m).
  - destruct (applyRateLimit service t m) as [m' pause]. rewrite IH.
    destruct (calls service ts1 m') as [m1 p1].
    now destruct (calls service ts2 m1).
Qed.

(** X10. Start-up fills the bucket of every configured service.  From a
    limiter with [n] tokens, [n] calls made at the instant of its last
    refill all pass without a pause, the next one waits [retryAfter], and
    the one after that passes again, since the call that waited left a
    token behind.  And a limiter whose rate divides 1000 and that has been
    idle for [burst] refill intervals lets a call pass and is full but for
    the token of that call. *)
Theorem burst_then_wait :
  (forall service c t0,
     In (service, c) rateLimits ->
     initializeRateLimiters t0 !! service = Some (mkLimiter (burst c) t0 c)) /\
  (forall service t m l,
     m !! service = Some l ->
     lastRefill l = t ->
     0 <= tokens l <= burst (cfg l) -> 1 <= burst (cfg l) ->
     (calls service (replicate (Z.to_nat (tokens l) + 2) t) m).2
     = replicate (Z.to_nat (tokens l)) None ++ [Some (retryAfter (cfg l)); None]) /\
  (forall l now,
     0 <= tokens l -> 1 <= burst (cfg l) ->
     (requestsPerSecond (cfg l) | 1000) ->
     0 < 1000 / requestsPerSecond (cfg l) ->
     burst (cfg l) * (1000 / requestsPerSecond (cfg l)) <= now - lastRefill l ->
     refill l now = (mkLimiter (burst (cfg l) - 1) now (cfg l), None)).
Proof.
  split; [|split].
  - intros service c t0 Hin. simpl in Hin.
    destruct Hin as [[= <- <-] | [[= <- <-] | [[= <- <-] | []]]]; reflexivity.
  - intros service t m l Hm Ht Hb H1.
    rewrite replicate_add, calls_app.
    rewrite (calls_at_once service t _ m l Hm Ht) by lia.
    rewrite Z2Nat.id by lia. rewrite Z.sub_diag.
    cbn [replicate calls]. unfold applyRateLimit.
    rewrite lookup_insert_eq. unfold refill at 1. cbn [tokens lastRefill cfg].
    rewrite Z.sub_diag, Zdiv_0_l, Z.add_0_r.
    rewrite Z.min_r by lia. cbn [Z.leb Z.compare].
    rewrite lookup_insert_eq. unfold refill. cbn [tokens lastRefill cfg].
    rewrite Z.sub_diag, Zdiv_0_l, Z.add_0_r.
    rewrite Z.min_r by lia. reflexivity.
  - intros l now Ht Hb _ Hi Hidle. unfold refill.
    assert (Hq : burst (cfg l)
                 <= (now - lastRefill l) / (1000 / requestsPerSecond (cfg l))).
    { apply Z.div_le_lower_bound; [exact Hi | lia]. }
    rewrite Z.min_l by lia.
    destruct (Z.leb_spec (burst (cfg l)) 0) as [Hle | Hgt]; [lia | reflexivity].
Qed.

(** The [jira] limiter: twenty calls pass, the next waits five seconds, and
    two idle seconds fill the bucket again. *)
Lemma burst_then_wait_witness :
  (calls "jira" (replicate 22 0) (initializeRateLimiters 0)).2
  = replicate 20 None ++ [Some 5000; None] /\
  refill (mkLimiter 0 0 (mkConfig 10 20 5000)) 2000
  = (mkLimiter 19 2000 (mkConfig 10 20 5000), None).
Proof.
  destruct burst_then_wait as (H1 & H2 & H3).
  split.
  - apply (H2 "jira" 0 (initializeRateLimiters 0)
              (mkLimiter 20 0 (mkConfig 10 20 5000)));
      [apply (H1 "jira" (mkConfig 10 20 5000) 0); now left
      | reflexivity | simpl; lia | simpl; lia].
  - apply (H3 (mkLimiter 0 0 (mkConfig 10 20 5000)) 2000);
      [simpl; lia | simpl; lia | now exists 100 | reflexivity
      | vm_compute; discriminate].
Defined.

(** ** Project configuration and the project tag *)

Lemma upper_alnum_char (c : ascii) :
  upper_alnum c = true ->
  Js.upper_ascii (Js.lower_ascii c) = c /\
  Js.upper_ascii c = c /\
  Ascii.eqb (Js.lower_ascii c) ":" = false.
Proof.
  destruct c as [[] [] [] [] [] [] [] []]; intros H; try discriminate H;
    repeat split; reflexivity.
Qed.

Lemma all_upper_alnum (key : string) :
  all_chars upper_alnum key = true ->
  Js.toUpperCase (Js.toLowerCase key) = key /\
  Js.toUpperCase key = key /\
  Js.has_char ":" (Js.toLowerCase key) = false.
Proof.
  unfold Js.toUpperCase, Js.toLowerCase.
  induction key as [|c key IH]; cbn [all_chars Js.map_string Js.has_char].
  - now repeat split.
  - intros [Hc Hkey]%andb_true_iff.
    destruct (upper_alnum_char c Hc) as (H1 & H2 & H3).
    destruct (IH Hkey) as (I1 & I2 & I3).
    rewrite H1, H2, H3, I1, I2, I3. now repeat split.
Qed.

Lemma project_tag_parts (seg : string) :
  Js.has_char ":" seg = false ->
  Js.startsWith ("cc-dev:" +:+ seg) "cc-dev:" = true /\
  Js.split ":" ("cc-dev:" +:+ seg) = ["cc-dev"; seg].
Proof.
  intros H. split; [apply (startsWith_app "cc-dev:")|].
  change ("cc-dev:" +:+ seg) with ("cc-dev" +:+ String ":" seg).
  rewrite split_at by reflexivity. now rewrite split_plain.
Qed.

(** X11. [validateProjectConfig] accepts a configuration exactly when its
    name is non-empty and its key consists of 2 to 10 characters from
    [A-Z0-9]; it reports a missing name or key before it looks at the shape
    of the key.  For an accepted key, the upper-casing of
    [createJiraProject] changes nothing, and the project tag
    [cc-dev:<key in lower case>] leads back to the key: a task that carries
    it is syncable and both project-key extractors return the key. *)
Theorem accepted_project_key (config : Project.config) :
  (validateProjectConfig config = inr tt <->
   exists name key,
     Project.name config = Some name /\ name <> "" /\
     Project.key config = Some key /\ key_pattern key = true) /\
  (Js.truthy_opt (Project.name config) = false \/
   Js.truthy_opt (Project.key config) = false ->
   exists fields,
     validateProjectConfig config
     = inl (JsError ("Missing required project fields: " +:+ fields))) /\
  (forall key taskId,
     Project.key config = Some key ->
     validateProjectConfig config = inr tt ->
     Js.toUpperCase key = key /\
     shouldSyncTask (project_task taskId key) = true /\
     extractProjectKeyFromTask (project_task taskId key) = Some key /\
     extractProjectKeyFromTags [project_tag key] = Some key).
Proof.
  assert (Hiff : validateProjectConfig config = inr tt <->
                 exists name key,
                   Project.name config = Some name /\ name <> "" /\
                   Project.key config = Some key /\ key_pattern key = true).
  { unfold validateProjectConfig. cbn [List.filter map snd fst].
    destruct config as [[name|] [key|]]; cbn [Project.name Project.key Js.truthy_opt].
    - unfold Js.truthy. destruct (String.eqb_spec name "") as [-> | Hn];
        destruct (String.eqb_spec key "") as [-> | Hk]; cbn.
      + split; [discriminate | intros (? & ? & [= <-] & ? & _); congruence].
      + split; [discriminate | intros (? & ? & [= <-] & ? & _); congruence].
      + split; [discriminate | intros (? & ? & _ & _ & [= <-] & H); discriminate].
      + destruct (key_pattern key) eqn:Hp; cbn.
        * split; [intros _; now exists name, key | reflexivity].
        * split; [discriminate | intros (? & ? & _ & _ & [= <-] & H); congruence].
    - destruct (Js.truthy name); cbn;
        (split; [discriminate | intros (? & ? & _ & _ & [=] & _)]).
    - destruct (Js.truthy key); cbn;
        (split; [discriminate | intros (? & ? & [=] & _)]).
    - cbn. split; [discriminate | intros (? & ? & [=] & _)]. }
  split; [exact Hiff | split].
  - unfold validateProjectConfig. cbn [List.filter map snd fst].
    destruct (Js.truthy_opt (Project.name config)),
      (Js.truthy_opt (Project.key config)); cbn;
      intros [H | H]; try discriminate H; eexists; reflexivity.
  - intros key taskId Hkey Hok.
    apply Hiff in Hok as (name & key' & _ & _ & Hkey' & Hp).
    rewrite Hkey in Hkey'. injection Hkey' as <-.
    unfold key_pattern in Hp. apply andb_true_iff in Hp as [_ Hp].
    destruct (all_upper_alnum key Hp) as (H1 & H2 & H3).
    destruct (project_tag_parts (Js.toLowerCase key) H3) as [Hs Hsplit].
    unfold extractProjectKeyFromTask, shouldSyncTask, project_task, project_tag,
      sync_prefix.
    cbn [Task.tags existsb scan_project_key extractProjectKeyFromTags].
    rewrite Hs, Hsplit. cbn. now rewrite H1.
Qed.

(** The project [WEBUI2] and its tag [cc-dev:webui2]; a key in lower case
    is refused. *)
Lemma accepted_project_key_witness :
  validateProjectConfig (Project.mkConfig (Some "Web UI") (Some "WEBUI2")) = inr tt /\
  extractProjectKeyFromTask (project_task (IdNum 3) "WEBUI2") = Some "WEBUI2" /\
  validateProjectConfig (Project.mkConfig (Some "Web UI") (Some "webui2"))
  = inl (JsError "Project key must be 2-10 uppercase alphanumeric characters") /\
  validateProjectConfig (Project.mkConfig None (Some "WEBUI2"))
  = inl (JsError "Missing required project fields: name").
Proof.
  destruct (accepted_project_key (Project.mkConfig (Some "Web UI") (Some "WEBUI2")))
    as (_ & _ & H).
  split; [reflexivity | split; [|split; reflexivity]].
  now apply (H "WEBUI2" (IdNum 3)).
Defined.

(** ** Invocations that do no work *)

Lemma add_delete_lock (k : string) (L : gset string) :
  k ∉ L -> ({[k]} ∪ L) ∖ {[k]} = L.
Proof.
  intros Hk. apply set_eq. intros x.
  rewrite elem_of_difference, elem_of_union, !elem_of_singleton. split.
  - intros [[-> | Hx] Hne]; [congruence | exact Hx].
  - intros Hx. split; [now right | intros ->; contradiction].
Qed.

(** X12. An entry point that is invoked while sync is disabled, or while
    its lock key is held, settles at once: no tracker call, no write of
    [tasks.json], no console line, no signal.  Its one effect is that of the [finally]
    block: the lock key is deleted from the lock set, held or not.  The
    same goes for a reverse sync of an issue that carries no task id. *)
Theorem skipped_invocation (env : Env) (w : World) :
  (forall k p,
     entry_point k p ->
     syncEnabled w = false \/ k ∈ syncLocks w ->
     run env p w = (Fulfilled tt, with_locks (syncLocks w ∖ {[k]}) w)) /\
  (forall issueData,
     extractTaskMasterIdFromJiraIssue issueData = None ->
     run env (handleJiraIssueUpdate issueData) w
     = (Fulfilled tt,
        with_locks (syncLocks w ∖ {["jira:" +:+ Issue.key issueData]}) w)).
Proof.
  split.
  - intros k p Hp Hskip. destruct Hp as [tagName tasks | taskData tagName | issueData].
    + unfold handleTagUpdate. cbn.
      destruct (syncEnabled w) eqn:Hen; cbn; [|reflexivity].
      destruct Hskip as [Hoff | Hheld]; [discriminate|].
      rewrite bool_decide_eq_true_2 by exact Hheld. reflexivity.
    + unfold handleTaskUpdate. cbn.
      destruct (syncEnabled w) eqn:Hen; cbn; [|reflexivity].
      destruct Hskip as [Hoff | Hheld]; [discriminate|].
      rewrite bool_decide_eq_true_2 by exact Hheld. reflexivity.
    + unfold handleJiraIssueUpdate. cbn.
      destruct (syncEnabled w) eqn:Hen; cbn; [|reflexivity].
      destruct Hskip as [Hoff | Hheld]; [discriminate|].
      destruct (extractTaskMasterIdFromJiraIssue issueData) as [taskId|]; cbn;
        [|reflexivity].
      rewrite bool_decide_eq_true_2 by exact Hheld. reflexivity.
  - intros issueData Hnone. unfold handleJiraIssueUpdate. cbn.
    destruct (syncEnabled w) eqn:Hen; cbn; [|reflexivity].
    rewrite Hnone. reflexivity.
Qed.

(** A tag sync that finds the key of the tag held by a sync in flight
    leaves the lock set without it. *)
Lemma skipped_invocation_witness :
  let w := with_locks {["tag:master"]} (initial_world FileMissing) in
  run sample_env (handleTagUpdate "master" [fix_bug_task]) w
  = (Fulfilled tt, with_locks ({["tag:master"]} ∖ {["tag:master"]}) w).
Proof.
  destruct (skipped_invocation sample_env
              (with_locks {["tag:master"]} (initial_world FileMissing))) as [H _].
  apply (H "tag:master" (handleTagUpdate "master" [fix_bug_task])).
  - apply (TagSync "master" [fix_bug_task]).
  - right. cbn. set_solver.
Defined.

(** ** The footprint of a tag sync *)

Section TagSync.
Context (env : Env).

(** A tag sync that goes to work: the lock set is restored, the signal is
    that of [tag_events], the lookups are those of the attempted tasks and
    [tasks.json] is not touched. *)
Lemma handleTagUpdate_run (tagName : string) (tasks : list Task.t) (w : World) :
  syncEnabled w = true ->
  ("tag:" +:+ tagName) ∉ syncLocks w ->
  exists w' cs,
    run env (handleTagUpdate tagName tasks) w = (Fulfilled tt, w') /\
    (syncEnabled w' = syncEnabled w /\
     syncLocks w' = syncLocks w /\
     mcp_calls w' = mcp_calls w ++ cs /\
     tasks_file w' = tasks_file w /\
     file_writes w' = file_writes w) /\
    emitted w' = emitted w ++ tag_events tagName tasks /\
    searches cs = lookups (attempted tasks) /\
    (filterSyncableTasks tasks = [] ->
     w' = logged LogInfo ("No syncable tasks found for tag: " +:+ tagName)
            (logged LogInfo ("Processing TaskMaster tag update: " +:+ tagName) w)).
Proof.
  intros Hen Hfree. unfold handleTagUpdate, tag_events, attempted.
  remember (for_each (Object_entries
                        (groupTasksByProject (filterSyncableTasks tasks))) _)
    as batch eqn:Hbatch.
  rewrite run_try_finally, run_try_catch.
  destruct w as [en L con em rl calls file writes]. cbn in Hen, Hfree. subst en.
  cbn. rewrite bool_decide_eq_false_2 by exact Hfree. cbn.
  destruct (filterSyncableTasks tasks) as [|t0 ts] eqn:Hsync.
  - cbn. eexists _, []. split; [reflexivity|].
    unfold logged, with_locks. cbn.
    rewrite (add_delete_lock _ _ Hfree), !app_nil_r.
    repeat split; reflexivity.
  - cbn [length Nat.eqb]. rewrite run_mbind. subst batch.
    match goal with
    | |- context [run env (for_each ?es _) ?w0] =>
        destruct (project_loop_run env es tagName w0)
          as (w1 & cs & -> & (E1 & E2 & E3 & E4 & E5 & E6) & Hs)
    end.
    cbn in E1, E2, E3, E4, E5, E6. cbn.
    eexists _, cs. split; [reflexivity|].
    cbn. rewrite E1, E2, E3, E4, E5, E6.
    rewrite (add_delete_lock _ _ Hfree).
    repeat split; try reflexivity; try assumption.
    discriminate.
Qed.

(** Whatever the state, a tag sync is fulfilled and leaves the switch and
    [tasks.json] as they were. *)
Lemma handleTagUpdate_frame (tagName : string) (tasks : list Task.t) (w : World) :
  exists w',
    run env (handleTagUpdate tagName tasks) w = (Fulfilled tt, w') /\
    syncEnabled w' = syncEnabled w /\
    tasks_file w' = tasks_file w /\
    file_writes w' = file_writes w.
Proof.
  destruct (syncEnabled w) eqn:Hen.
  - destruct (decide (("tag:" +:+ tagName) ∈ syncLocks w)) as [Hheld | Hfree].
    + unfold handleTagUpdate. cbn. rewrite Hen. cbn.
      rewrite bool_decide_eq_true_2 by exact Hheld. cbn.
      eexists. split; [reflexivity|]. cbn. now rewrite Hen.
    + destruct (handleTagUpdate_run tagName tasks w Hen Hfree)
        as (w' & cs & Hrun & (E1 & _ & _ & E5 & E6) & _).
      exists w'. rewrite Hrun, E1, Hen. now repeat split.
  - unfold handleTagUpdate. cbn. rewrite Hen. cbn.
    eexists. split; [reflexivity|]. cbn. now rewrite Hen.
Qed.

End TagSync.

(** X13. A tag sync that goes to work (sync enabled, key of the tag free)
    gives the lock set back as it found it, never writes [tasks.json] and
    leaves the switch alone.  When no task of the tag is
    syncable it makes no tracker call and emits no signal: it only logs
    that it started and that it found nothing. *)
Theorem tag_sync_footprint (env : Env) (w : World) (tagName : string)
    (tasks : list Task.t) :
  syncEnabled w = true ->
  ("tag:" +:+ tagName) ∉ syncLocks w ->
  let r := run env (handleTagUpdate tagName tasks) w in
  r.1 = Fulfilled tt /\
  syncLocks r.2 = syncLocks w /\
  syncEnabled r.2 = true /\
  tasks_file r.2 = tasks_file w /\
  file_writes r.2 = file_writes w /\
  (filterSyncableTasks tasks = [] ->
   r.2 = logged LogInfo ("No syncable tasks found for tag: " +:+ tagName)
           (logged LogInfo ("Processing TaskMaster tag update: " +:+ tagName) w)).
Proof.
  intros Hen Hfree. cbv zeta.
  destruct (handleTagUpdate_run env tagName tasks w Hen Hfree)
    as (w' & cs & -> & (E1 & E2 & _ & E5 & E6) & _ & _ & Hnone).
  cbn [fst snd]. rewrite E1, E2, E5, E6, Hen. now repeat split.
Qed.

(** A tag whose only task has no tags. *)
Lemma tag_sync_footprint_witness :
  let r := run sample_env (handleTagUpdate "notes" [untagged_task])
             (initial_world FileMissing) in
  r.1 = Fulfilled tt /\
  r.2 = logged LogInfo ("No syncable tasks found for tag: " +:+ "notes")
          (logged LogInfo ("Processing TaskMaster tag update: " +:+ "notes")
             (initial_world FileMissing)).
Proof.
  destruct (tag_sync_footprint sample_env (initial_world FileMissing) "notes"
              [untagged_task]) as (H1 & _ & _ & _ & _ & H6);
    [reflexivity | apply not_elem_of_empty |].
  split; [exact H1 | exact (H6 eq_refl)].
Defined.

(** ** The change-detection cycle *)

Section Cycle.
Context (env : Env).

Lemma log_run (msg : string) (w : World) :
  run env (log msg) w = (Fulfilled tt, logged LogInfo msg w).
Proof. reflexivity. Qed.

Lemma read_run (w : World) :
  run env (await ReadTasksFile) w
  = match tasks_file w with
    | FileMissing => (RejectedWith (Rejected "ENOENT: no such file or directory"), w)
    | FileInvalid _ => (RejectedWith (JsError "SyntaxError: Unexpected token in JSON"), w)
    | FileJson d => (Fulfilled d, w)
    end.
Proof. unfold await. cbn. now destruct (tasks_file w). Qed.

Lemma sync_other_tag_frame (entry : string * Store.tag_data) (w : World) :
  exists w',
    run env (sync_other_tag entry) w = (Fulfilled tt, w') /\
    syncEnabled w' = syncEnabled w /\
    tasks_file w' = tasks_file w /\
    file_writes w' = file_writes w.
Proof.
  destruct entry as [tagName tagData]. unfold sync_other_tag.
  destruct (negb (tagName =? "master")%string && negb (tagName =? "metadata")%string);
    [|now exists w].
  destruct (Store.tasks tagData) as [tasks|]; [|now exists w].
  apply handleTagUpdate_frame.
Qed.

Lemma tags_loop_frame (entries : list (string * Store.tag_data)) (w : World) :
  exists w',
    run env (for_each entries sync_other_tag) w = (Fulfilled tt, w') /\
    syncEnabled w' = syncEnabled w /\
    tasks_file w' = tasks_file w /\
    file_writes w' = file_writes w.
Proof.
  revert w. induction entries as [|entry entries IH]; intros w; cbn [for_each].
  - now exists w.
  - rewrite run_bind.
    destruct (sync_other_tag_frame entry w) as (w1 & -> & A1 & A2 & A3).
    destruct (IH w1) as (w2 & -> & B1 & B2 & B3).
    exists w2. rewrite B1, B2, B3, A1, A2, A3. now repeat split.
Qed.

(** With sync enabled and no tag sync in flight, the loop syncs the tags
    it selects one after the other. *)
Lemma tags_loop_run (entries : list (string * Store.tag_data)) (w : World) :
  syncEnabled w = true ->
  (forall tagName, ("tag:" +:+ tagName) ∉ syncLocks w) ->
  exists w' cs,
    run env (for_each entries sync_other_tag) w = (Fulfilled tt, w') /\
    syncEnabled w' = syncEnabled w /\
    syncLocks w' = syncLocks w /\
    mcp_calls w' = mcp_calls w ++ cs /\
    emitted w'
    = emitted w
      ++ flat_map (fun e => tag_events e.1 e.2)
           (omap (fun '(tagName, tagData) =>
                    if negb (tagName =? "master")%string
                       && negb (tagName =? "metadata")%string
                    then pair tagName <$> Store.tasks tagData
                    else None) entries) /\
    searches cs
    = lookups (flat_map (fun e => attempted e.2)
                 (omap (fun '(tagName, tagData) =>
                          if negb (tagName =? "master")%string
                             && negb (tagName =? "metadata")%string
                          then pair tagName <$> Store.tasks tagData
                          else None) entries)).
Proof.
  revert w. induction entries as [|[tagName tagData] entries IH]; intros w Hen Hfree;
    cbn [for_each omap list_omap].
  - exists w, []. cbn. rewrite !app_nil_r. now repeat split.
  - rewrite run_bind. unfold sync_other_tag at 1.
    destruct (negb (tagName =? "master")%string && negb (tagName =? "metadata")%string).
    + destruct (Store.tasks tagData) as [tasks|]; cbn [fmap option_fmap option_map].
      * destruct (handleTagUpdate_run env tagName tasks w Hen (Hfree tagName))
          as (w1 & c1 & -> & (A1 & A2 & A3 & _ & _) & A4 & A5 & _).
        destruct (IH w1) as (w2 & c2 & -> & B1 & B2 & B3 & B4 & B5).
        { now rewrite A1. }
        { intros t. rewrite A2. apply Hfree. }
        exists w2, (c1 ++ c2). cbn [flat_map fst snd].
        rewrite B1, B2, B3, B4, A1, A2, A3, A4, searches_app, A5, B5.
        unfold lookups. rewrite map_app, <- !app_assoc. now repeat split.
      * cbn [run]. destruct (IH w Hen Hfree) as (w2 & c2 & -> & B).
        now exists w2, c2.
    + cbn [run]. destruct (IH w Hen Hfree) as (w2 & c2 & -> & B).
      now exists w2, c2.
Qed.

End Cycle.

(** X14. A change-detection cycle ([processTaskMasterUpdates]) never
    rejects and never writes [tasks.json].  When the file cannot be read or
    parsed the cycle only logs the failure.  Otherwise, with sync enabled
    and no tag sync in flight, it syncs [master] first, when that tag has a
    task list, and then every other tag that has one, in the property order
    of the parsed object (the entries [master] and [metadata] skipped by
    name): the signals and the lookups of the cycle are those of these tag
    syncs, one after the other.  The initial sync is a cycle between two
    console lines; it reports completion whatever the cycle did. *)
Theorem change_cycle (env : Env) (w : World) :
  let r := run env processTaskMasterUpdates w in
  r.1 = Fulfilled tt /\
  tasks_file r.2 = tasks_file w /\
  file_writes r.2 = file_writes w /\
  ((forall d, tasks_file w <> FileJson d) ->
   exists e,
     r.2 = logged LogError
             ("Failed to process TaskMaster updates:" +:+ " " +:+ show_error e) w) /\
  (forall d,
     tasks_file w = FileJson d ->
     syncEnabled w = true ->
     (forall tagName, ("tag:" +:+ tagName) ∉ syncLocks w) ->
     syncLocks r.2 = syncLocks w /\
     emitted r.2
     = emitted w ++ flat_map (fun e => tag_events e.1 e.2) (synced_tags d) /\
     searches (mcp_calls r.2)
     = searches (mcp_calls w)
       ++ lookups (flat_map (fun e => attempted e.2) (synced_tags d))) /\
  run env performInitialSync w
  = (Fulfilled tt,
     logged LogInfo "Initial sync completed"
       (run env processTaskMasterUpdates
          (logged LogInfo "Performing initial TaskMaster sync..." w)).2).
Proof.
  assert (Hnever : forall w0, (run env processTaskMasterUpdates w0).1 = Fulfilled tt /\
                              tasks_file (run env processTaskMasterUpdates w0).2
                              = tasks_file w0 /\
                              file_writes (run env processTaskMasterUpdates w0).2
                              = file_writes w0).
  { intros w0. unfold processTaskMasterUpdates.
    rewrite run_try_catch, run_mbind, read_run.
    destruct (tasks_file w0) as [ | raw | d] eqn:Hfile;
      [cbn; now rewrite Hfile | cbn; now rewrite Hfile |].
    rewrite run_mbind.
    assert (exists w1, run env (match master_tasks d with
                                | Some tasks => handleTagUpdate "master" tasks
                                | None => Ret tt
                                end) w0 = (Fulfilled tt, w1) /\
                       syncEnabled w1 = syncEnabled w0 /\
                       tasks_file w1 = tasks_file w0 /\
                       file_writes w1 = file_writes w0) as (w1 & -> & A1 & A2 & A3).
    { destruct (master_tasks d) as [tasks|]; [apply handleTagUpdate_frame | now exists w0]. }
    destruct (tags_loop_frame env (js_entries (Store.other_tags d)) w1)
      as (w2 & -> & B1 & B2 & B3).
    cbn. repeat split; congruence. }
  cbv zeta. destruct (Hnever w) as (N1 & N2 & N3).
  repeat match goal with |- _ /\ _ => split end; trivial.
  - intros Hbad. unfold processTaskMasterUpdates.
    rewrite run_try_catch, run_mbind, read_run.
    destruct (tasks_file w) as [ | raw | d] eqn:Hfile.
    + now exists (Rejected "ENOENT: no such file or directory").
    + now exists (JsError "SyntaxError: Unexpected token in JSON").
    + now destruct (Hbad d).
  - intros d Hfile Hen Hfree.
    unfold processTaskMasterUpdates, synced_tags.
    rewrite run_try_catch, run_mbind, read_run, Hfile, run_mbind.
    destruct (master_tasks d) as [tasks|].
    + destruct (handleTagUpdate_run env "master" tasks w Hen (Hfree "master"))
        as (w1 & c1 & -> & (A1 & A2 & A3 & _ & _) & A4 & A5 & _).
      destruct (tags_loop_run env (js_entries (Store.other_tags d)) w1)
        as (w2 & c2 & -> & B1 & B2 & B3 & B4 & B5).
      { now rewrite A1. }
      { intros t. rewrite A2. apply Hfree. }
      cbn [fst snd app flat_map].
      rewrite B2, B3, B4, A2, A3, A4, !searches_app, A5, B5.
      unfold lookups. rewrite map_app, <- !app_assoc. now repeat split.
    + cbn [run].
      destruct (tags_loop_run env (js_entries (Store.other_tags d)) w Hen Hfree)
        as (w2 & c2 & -> & B1 & B2 & B3 & B4 & B5).
      cbn [fst snd app]. rewrite B2, B3, B4, searches_app, B5. now repeat split.
  - unfold performInitialSync. rewrite run_mbind, log_run, run_mbind.
    pose proof (Hnever (logged LogInfo "Performing initial TaskMaster sync..." w))
      as (M1 & _).
    set (w0 := logged LogInfo "Performing initial TaskMaster sync..." w) in *.
    destruct (run env processTaskMasterUpdates w0) as [o w1].
    cbn in M1. subst o. apply log_run.
Qed.

(** The tags of [sprint_store] are synced in the order master, 2, 10,
    release: the numbered tags come first and in ascending order, and the
    tag without a task list is left out. *)
Lemma change_cycle_witness :
  let r := run sample_env processTaskMasterUpdates
             (initial_world (FileJson sprint_store)) in
  map fst (synced_tags sprint_store) = ["master"; "2"; "10"; "release"] /\
  emitted r.2
  = [TagSynced "master" 1; TagSynced "2" 1; TagSynced "10" 1; TagSynced "release" 1] /\
  searches (mcp_calls r.2)
  = lookups [fix_bug_task; jira_tagged_task; second_task; other_project_task].
Proof.
  destruct (change_cycle sample_env (initial_world (FileJson sprint_store)))
    as (_ & _ & _ & _ & H & _).
  destruct (H sprint_store) as (_ & He & Hs);
    [reflexivity | reflexivity | intros t; apply not_elem_of_empty |].
  split; [reflexivity | split; [exact He | exact Hs]].
Defined.

(** ** The sync of a single task *)

Section TaskSync.
Context (env : Env).

(** Without an issue for the task and without a project tag on it, a sync
    under no explicit project key fails after the lookup. *)
Lemma syncTaskToJira_no_project (taskData : Task.t) (w : World) :
  finds_issue (answer env w (search_call (Task.id taskData))) = false ->
  extractProjectKeyFromTags (default [] (Task.tags taskData)) = None ->
  exists w',
    run env (syncTaskToJira taskData None) w
    = (RejectedWith (JsError ("No project key found in task tags: "
                              +:+ show_tags (Task.tags taskData))), w') /\
    extends w w' [search_call (Task.id taskData)].
Proof.
  unfold finds_issue, answer, search_call. cbn [fst snd].
  intros Hfind Hkey.
  unfold syncTaskToJira, findJiraIssueForTask, createJiraIssueFromTask,
    with_project_tag.
  cbn.
  destruct (mcp env (mcp_calls w) _ _) as [e | [ | [|issue l] | key]];
    try discriminate; cbn; rewrite Hkey; cbn;
    (eexists; split; [reflexivity | extends_now]).
Qed.

Lemma handleTaskUpdate_run (taskData : Task.t) (tagName : option string) (w : World) :
  syncEnabled w = true ->
  ("task:" +:+ toString (Task.id taskData)) ∉ syncLocks w ->
  exists w',
    run env (handleTaskUpdate taskData tagName) w = (Fulfilled tt, w') /\
    syncEnabled w' = syncEnabled w /\
    syncLocks w' = syncLocks w /\
    tasks_file w' = tasks_file w /\
    file_writes w' = file_writes w /\
    if shouldSyncTask taskData then
      mcp_calls w'
      = mcp_calls (run env (syncTaskToJira taskData None)
                     (task_sync_started taskData w)).2 /\
      emitted w'
      = emitted w
        ++ [task_event taskData tagName
              (run env (syncTaskToJira taskData None)
                 (task_sync_started taskData w)).1]
    else
      mcp_calls w' = mcp_calls w /\ emitted w' = emitted w.
Proof.
  intros Hen Hfree. unfold handleTaskUpdate, task_sync_started.
  remember (syncTaskToJira taskData None) as sync eqn:Hsync.
  rewrite run_try_finally, run_try_catch.
  destruct w as [en L con em rl calls file writes]. cbn in Hen, Hfree. subst en.
  cbn. rewrite bool_decide_eq_false_2 by exact Hfree. cbn.
  destruct (shouldSyncTask taskData); cbn.
  - rewrite ?run_mbind, ?run_bind. unfold logged, with_locks. cbn.
    subst sync.
    match goal with
    | |- context [run env (syncTaskToJira taskData None) ?w0] =>
        destruct (syncTaskToJira_run env taskData None w0)
          as (o & w1 & cs & Hrun & (E1 & E2 & E3 & E4 & E5 & E6) & _);
        rewrite Hrun
    end.
    cbn in E1, E2, E3, E4, E5, E6.
    destruct o as [t | e]; cbn.
    + destruct (isDocumentationTask taskData), (isSupportTask taskData); cbn;
        eexists; (split; [reflexivity|]); cbn;
        rewrite ?E1, ?E2, ?E3, ?E4, ?E5, ?E6, (add_delete_lock _ _ Hfree);
        now repeat split.
    + eexists; (split; [reflexivity|]); cbn.
      rewrite ?E1, ?E2, ?E3, ?E4, ?E5, ?E6, (add_delete_lock _ _ Hfree).
      now repeat split.
  - eexists. split; [reflexivity|]. cbn.
    rewrite (add_delete_lock _ _ Hfree). now repeat split.
Qed.

End TaskSync.

(** X15. A task sync that goes to work (sync enabled, key of the task
    free) is always fulfilled, gives the lock set back as it found it and
    never writes [tasks.json].  For a task that is not syncable it makes
    no tracker call and emits no signal.  For a syncable task it runs
    [syncTaskToJira] without a project key and emits exactly one signal:
    [task:synced] when that sync is fulfilled, [task:sync:error] with its
    error when it is rejected.  Unlike a tag sync, which files a task
    without a project tag under the default project, a task sync has no
    default: when the tracker has no issue for such a task, the sync ends
    after the lookup with the error [No project key found]. *)
Theorem task_update_outcome (env : Env) (w : World) (taskData : Task.t)
    (tagName : option string) :
  syncEnabled w = true ->
  ("task:" +:+ toString (Task.id taskData)) ∉ syncLocks w ->
  let r := run env (handleTaskUpdate taskData tagName) w in
  let sync := run env (syncTaskToJira taskData None) (task_sync_started taskData w) in
  r.1 = Fulfilled tt /\
  syncLocks r.2 = syncLocks w /\
  tasks_file r.2 = tasks_file w /\
  file_writes r.2 = file_writes w /\
  (shouldSyncTask taskData = false ->
   mcp_calls r.2 = mcp_calls w /\ emitted r.2 = emitted w) /\
  (shouldSyncTask taskData = true ->
   mcp_calls r.2 = mcp_calls sync.2 /\
   emitted r.2 = emitted w ++ [task_event taskData tagName sync.1]) /\
  (shouldSyncTask taskData = true ->
   finds_issue (answer env w (search_call (Task.id taskData))) = false ->
   extractProjectKeyFromTags (default [] (Task.tags taskData)) = None ->
   mcp_calls r.2 = mcp_calls w ++ [search_call (Task.id taskData)] /\
   emitted r.2
   = emitted w
     ++ [TaskSyncError (Task.id taskData)
           (JsError ("No project key found in task tags: "
                     +:+ show_tags (Task.tags taskData)))]).
Proof.
  intros Hen Hfree. cbv zeta.
  destruct (handleTaskUpdate_run env taskData tagName w Hen Hfree)
    as (w' & -> & _ & E2 & E3 & E4 & Hsync).
  cbn [fst snd].
  repeat match goal with |- _ /\ _ => split end; trivial.
  - intros Hno. now rewrite Hno in Hsync.
  - intros Hyes. now rewrite Hyes in Hsync.
  - intros Hyes Hfind Hkey. rewrite Hyes in Hsync. destruct Hsync as [Hc He].
    destruct (syncTaskToJira_no_project env taskData (task_sync_started taskData w))
      as (w1 & Hrun & (_ & _ & _ & F4 & _)); [exact Hfind | exact Hkey |].
    rewrite Hrun in Hc, He. cbn [fst snd] in Hc, He.
    rewrite Hc, He, F4. now split.
Qed.

(** The task routed by a [jira:] tag only: the tag sync of a batch would
    file it under the default project, its own sync fails. *)
Lemma task_update_outcome_witness :
  let r := run sample_env (handleTaskUpdate jira_tagged_task None)
             (initial_world FileMissing) in
  extractProjectKeyFromTask jira_tagged_task = Some "ADAPT" /\
  mcp_calls r.2 = [search_call (IdStr "t-4")] /\
  emitted r.2
  = [TaskSyncError (IdStr "t-4")
       (JsError "No project key found in task tags: jira:triage")].
Proof.
  destruct (task_update_outcome sample_env (initial_world FileMissing)
              jira_tagged_task None) as (_ & _ & _ & _ & _ & _ & H);
    [reflexivity | apply not_elem_of_empty |].
  split; [reflexivity | apply H; reflexivity].
Defined.

(** ** The project key of a group and the project key of a creation *)

Lemma existsb_false_In {A} (f : A -> bool) (l : list A) :
  existsb f l = false -> forall x, In x l -> f x = false.
Proof.
  induction l as [|y l IH]; simpl; [contradiction|].
  intros [Hy Hl]%orb_false_elim x [<- | Hx]; [exact Hy | now apply IH].
Qed.

Lemma tags_key_app (tags more : list string) (k : string) :
  extractProjectKeyFromTags tags = Some k ->
  extractProjectKeyFromTags (tags ++ more) = Some k.
Proof.
  induction tags as [|t tags IH]; cbn [extractProjectKeyFromTags app];
    [discriminate|].
  destruct (Js.startsWith t "cc-dev:"); [|exact IH].
  destruct (Js.split ":" t) as [|a [|b parts]]; cbn; [exact IH | exact IH | trivial].
Qed.

Lemma tags_key_skip (tags more : list string) :
  existsb (fun tag => Js.startsWith tag "cc-dev:") tags = false ->
  extractProjectKeyFromTags (tags ++ more) = extractProjectKeyFromTags more.
Proof.
  induction tags as [|t tags IH]; cbn [extractProjectKeyFromTags app existsb];
    [reflexivity|].
  intros [Ht Hl]%orb_false_elim. rewrite Ht. now apply IH.
Qed.

Lemma tags_set_tags (v : list string) (task : Task.t) :
  Task.tags (Task.set_tags v task) = Some v.
Proof. now destruct task. Qed.

(** On tags with a [cc-dev:] tag the two extractors agree wherever the
    one of the handler finds a key. *)
Lemma scan_key_tags_key (tags : list string) (k : string) :
  existsb (fun tag => Js.startsWith tag "cc-dev:") tags = true ->
  scan_project_key tags = Some k ->
  extractProjectKeyFromTags tags = Some k.
Proof.
  induction tags as [|t tags IH];
    cbn [extractProjectKeyFromTags scan_project_key existsb]; [discriminate|].
  destruct (Js.startsWith t "cc-dev:"); cbn [orb].
  - intros _. destruct (Js.split ":" t) as [|a [|b parts]]; cbn;
      [discriminate | discriminate | trivial].
  - exact IH.
Qed.

(** X16. The key under which [groupTasksByProject] files a task and the
    key under which the task is then created.  [syncTaskToJira] pushes the
    tag [cc-dev:<key in lower case>] unless some tag of the task already
    contains the key in lower case, and [createJiraIssueFromTask] reads the
    key back from the tags.  For a task with a [cc-dev:] tag the key read
    back is the key of the group.  A task without one is in the group of
    the default project [ADAPT]: the key read back is [ADAPT] when none of
    its tags contains [adapt]; when one does, no tag is pushed, no key is
    found and the creation is rejected before any call to the tracker. *)
Theorem group_key_is_creation_key (task : Task.t) (tags : list string) (k : string) :
  Task.tags task = Some tags ->
  extractProjectKeyFromTask task = Some k ->
  Js.truthy k = true ->
  let pushed := default [] (Task.tags (with_project_tag (Some k) task)) in
  (existsb (fun tag => Js.startsWith tag "cc-dev:") tags = true ->
   extractProjectKeyFromTags pushed = Some k) /\
  (existsb (fun tag => Js.startsWith tag "cc-dev:") tags = false ->
   k = "ADAPT" /\
   if existsb (fun tag => Js.includes tag "adapt") tags
   then
     pushed = tags /\
     forall env w, exists w',
       run env (createJiraIssueFromTask (with_project_tag (Some k) task)) w
       = (RejectedWith (JsError ("No project key found in task tags: "
                                 +:+ show_tags (Some tags))), w') /\
       mcp_calls w' = mcp_calls w
   else
     pushed = tags ++ ["cc-dev:adapt"] /\
     extractProjectKeyFromTags pushed = Some "ADAPT").
Proof.
  intros Htags Hkey Hk. cbv zeta.
  unfold extractProjectKeyFromTask in Hkey. rewrite Htags in Hkey.
  unfold with_project_tag. rewrite Hk, Htags. cbn [default]. unfold id.
  split.
  - intros Hcc. pose proof (scan_key_tags_key tags k Hcc Hkey) as Hread.
    match goal with |- context [if ?b then _ else _] => destruct b end;
      rewrite tags_set_tags; cbn [default]; unfold id; [exact Hread|].
    now apply tags_key_app.
  - intros Hcc.
    rewrite (scan_no_cc_dev tags (existsb_false_In _ _ Hcc)) in Hkey.
    injection Hkey as <-. split; [reflexivity|].
    change (Js.toLowerCase "ADAPT") with "adapt".
    destruct (existsb (fun tag => Js.includes tag "adapt") tags) eqn:Hin;
      rewrite tags_set_tags; cbn [default]; unfold id.
    + split; [reflexivity|].
      intros env w. unfold createJiraIssueFromTask.
      assert (Hnone : extractProjectKeyFromTags tags = None).
      { rewrite <- (app_nil_r tags). now rewrite tags_key_skip. }
      rewrite run_try_catch, !run_mbind. cbn [run trigger perform].
      rewrite !run_mbind, log_run, tags_set_tags. cbn [default]. unfold id.
      rewrite Hnone.
      cbn. eexists. split; reflexivity.
    + split; [reflexivity|]. now rewrite tags_key_skip.
Qed.

(** The task with the tag [jira:adaptive] is syncable and grouped under
    [ADAPT], but its tag contains [adapt]: its creation is rejected. *)
Lemma group_key_is_creation_key_witness :
  shouldSyncTask adaptive_task = true /\
  in_group "ADAPT" adaptive_task (groupTasksByProject [adaptive_task]) /\
  forall env w, exists w',
    run env (createJiraIssueFromTask (with_project_tag (Some "ADAPT") adaptive_task)) w
    = (RejectedWith (JsError ("No project key found in task tags: "
                              +:+ show_tags (Some ["jira:adaptive"]))), w') /\
    mcp_calls w' = mcp_calls w.
Proof.
  destruct (group_key_is_creation_key adaptive_task ["jira:adaptive"] "ADAPT")
    as [_ H]; [reflexivity | reflexivity | reflexivity |].
  destruct (H eq_refl) as [_ [_ Hrej]].
  split; [reflexivity | split; [|exact Hrej]].
  exists [adaptive_task]. split; [reflexivity | now left].
Defined.

(** ** Reverse sync: outcome and repetition *)

Section Reverse.
Context (env : Env).

(** The update of a task from an issue calls no tracker and takes no
    lock; when it is rejected, [tasks.json] is as it was. *)
Lemma updateTaskMasterTask_run (taskId : task_id) (issueData : Issue.t) (w : World) :
  exists o w',
    run env (updateTaskMasterTask taskId issueData) w = (o, w') /\
    syncEnabled w' = syncEnabled w /\
    syncLocks w' = syncLocks w /\
    emitted w' = emitted w /\
    mcp_calls w' = mcp_calls w /\
    rate_limited w' = rate_limited w /\
    (forall e, o = RejectedWith e ->
               tasks_file w' = tasks_file w /\ file_writes w' = file_writes w) /\
    ((forall d, tasks_file w <> FileJson d) -> exists e, o = RejectedWith e) /\
    (forall d i e,
       tasks_file w = FileJson d ->
       findIndex (same_id taskId) (masterTasks d) = Some i ->
       (forall d', write_error env (tasks_file w) d' = Some e) ->
       o = RejectedWith e).
Proof.
  unfold updateTaskMasterTask.
  rewrite run_try_catch, run_mbind, read_run.
  destruct w as [en L con em rl calls file writes]. cbn [tasks_file].
  destruct file as [ | raw | d].
  - cbn. eexists _, _. split; [reflexivity|]. cbn.
    repeat split; trivial; [eauto | discriminate].
  - cbn. eexists _, _. split; [reflexivity|]. cbn.
    repeat split; trivial; [eauto | discriminate].
  - destruct (findIndex (same_id taskId) (masterTasks d)) as [i|] eqn:Hidx.
    + destruct (findIndex_lookup _ _ _ Hidx) as (task & Hlook & _).
      rewrite Hlook. cbn.
      destruct (write_error env (FileJson d) _) as [e|] eqn:Hw; cbn.
      * eexists _, _. split; [reflexivity|]. cbn.
        repeat split; trivial.
        -- intros Hbad. now destruct (Hbad d).
        -- intros d0 i0 e0 [= <-] _ Hfail. rewrite Hfail in Hw. congruence.
      * eexists _, _. split; [reflexivity|]. cbn.
        repeat split; trivial; try discriminate.
        -- intros Hbad. now destruct (Hbad d).
        -- intros d0 i0 e0 [= <-] _ Hfail. rewrite Hfail in Hw. discriminate.
    + cbn. eexists _, _. split; [reflexivity|]. cbn.
      repeat split; trivial; try discriminate.
      * intros Hbad. now destruct (Hbad d).
      * intros d0 i0 e0 [= <-] Hsome. congruence.
Qed.

(** The update of a task that is found, on a file that can be written. *)
Lemma updateTaskMasterTask_found (taskId : task_id) (issueData : Issue.t) (w : World)
    (d : Store.t) (i : nat) (task : Task.t) :
  tasks_file w = FileJson d ->
  (forall d', write_error env (FileJson d) d' = None) ->
  findIndex (same_id taskId) (masterTasks d) = Some i ->
  masterTasks d !! i = Some task ->
  let d' := touch_metadata (now env (length (file_writes w)))
              (store_task i (merge_issue issueData task) d) in
  run env (updateTaskMasterTask taskId issueData) w
  = (Fulfilled tt,
     mkWorld (syncEnabled w) (syncLocks w)
       (console w ++
        [(LogInfo, "Updated TaskMaster task " +:+ toString taskId
                   +:+ " from Jira issue " +:+ Issue.key issueData)])
       (emitted w) (rate_limited w) (mcp_calls w) (FileJson d')
       (file_writes w ++ [d'])).
Proof.
  intros Hfile Hwrite Hidx Hlook. cbv zeta.
  unfold updateTaskMasterTask. cbn. rewrite Hfile. cbn.
  rewrite Hidx. cbn. rewrite Hlook. cbn. rewrite Hfile, Hwrite. reflexivity.
Qed.

End Reverse.

(** X17. A reverse sync that goes to work (sync enabled, issue with a task
    id, key of the issue free) is always fulfilled, gives the lock set back
    as it found it and never calls the tracker or the rate limiter.  It
    emits exactly one signal, [jira:synced] or [jira:sync:error]; whenever
    it is the error signal, [tasks.json] is as it was.  That is the case
    when the file cannot be read or parsed, and when the task is found but
    the file cannot be written: the signal then carries the error of the
    write. *)
Theorem reverse_sync_outcome (env : Env) (w : World) (issueData : Issue.t)
    (taskId : task_id) :
  syncEnabled w = true ->
  ("jira:" +:+ Issue.key issueData) ∉ syncLocks w ->
  extractTaskMasterIdFromJiraIssue issueData = Some taskId ->
  let r := run env (handleJiraIssueUpdate issueData) w in
  let failed e :=
    emitted r.2 = emitted w ++ [JiraSyncError (Issue.key issueData) e] /\
    tasks_file r.2 = tasks_file w /\
    file_writes r.2 = file_writes w in
  r.1 = Fulfilled tt /\
  syncLocks r.2 = syncLocks w /\
  mcp_calls r.2 = mcp_calls w /\
  rate_limited r.2 = rate_limited w /\
  (emitted r.2 = emitted w ++ [JiraSynced (Issue.key issueData) taskId] \/
   exists e, failed e) /\
  ((forall d, tasks_file w <> FileJson d) -> exists e, failed e) /\
  (forall d i e,
     tasks_file w = FileJson d ->
     findIndex (same_id taskId) (masterTasks d) = Some i ->
     (forall d', write_error env (tasks_file w) d' = Some e) ->
     failed e).
Proof.
  intros Hen Hfree Hid. cbv zeta.
  assert (Hrun : exists w',
            run env (handleJiraIssueUpdate issueData) w = (Fulfilled tt, w') /\
            syncLocks w' = syncLocks w /\
            mcp_calls w' = mcp_calls w /\
            rate_limited w' = rate_limited w /\
            match (run env (updateTaskMasterTask taskId issueData)
                     (logged LogInfo
                        ("Processing Jira issue update: " +:+ Issue.key issueData
                         +:+ " -> Task " +:+ toString taskId)
                        (with_locks ({["jira:" +:+ Issue.key issueData]} ∪ syncLocks w)
                                    w))).1 with
            | Fulfilled _ =>
                emitted w' = emitted w ++ [JiraSynced (Issue.key issueData) taskId]
            | RejectedWith e =>
                emitted w' = emitted w ++ [JiraSyncError (Issue.key issueData) e] /\
                tasks_file w' = tasks_file w /\
                file_writes w' = file_writes w
            end).
  { unfold handleJiraIssueUpdate.
    rewrite run_try_finally, run_try_catch.
    destruct w as [en L con em rl calls file writes]. cbn in Hen, Hfree. subst en.
    cbn -[updateTaskMasterTask]. rewrite Hid. cbn -[updateTaskMasterTask].
    rewrite bool_decide_eq_false_2 by exact Hfree. cbn -[updateTaskMasterTask].
    rewrite ?run_mbind, ?run_bind. unfold logged, with_locks.
    cbn -[updateTaskMasterTask].
    match goal with
    | |- context [run env (updateTaskMasterTask taskId issueData) ?w0] =>
        destruct (updateTaskMasterTask_run env taskId issueData w0)
          as (o & w1 & Hrun & E1 & E2 & E3 & E4 & E5 & Hrej & _);
        rewrite Hrun
    end.
    cbn in E1, E2, E3, E4, E5, Hrej.
    destruct o as [[] | e]; cbn.
    - eexists. split; [reflexivity|]. cbn.
      rewrite E2, E3, E4, E5, (add_delete_lock _ _ Hfree). now repeat split.
    - destruct (Hrej e eq_refl) as [F1 F2].
      eexists. split; [reflexivity|]. cbn.
      rewrite E2, E3, E4, E5, F1, F2, (add_delete_lock _ _ Hfree). now repeat split. }
  destruct Hrun as (w' & -> & E2 & E4 & E5 & Hev). cbn [fst snd].
  match type of Hev with
  | match (run env _ ?w0).1 with _ => _ end =>
      destruct (updateTaskMasterTask_run env taskId issueData w0)
        as (o & w1 & Hrun & _ & _ & _ & _ & _ & _ & Hbad & Hwrite);
      rewrite Hrun in Hev; cbn [fst] in Hev
  end.
  cbn in Hbad, Hwrite.
  repeat match goal with |- _ /\ _ => split end; trivial.
  - destruct o as [[] | e]; [now left | right; now exists e].
  - intros Hfile. destruct (Hbad Hfile) as [e ->]. now exists e.
  - intros d i e Hfile Hidx Hfail. now rewrite (Hwrite d i e Hfile Hidx Hfail) in Hev.
Qed.

(** The reverse-sync scenario on a file system that refuses the write. *)
Lemma reverse_sync_outcome_witness :
  let w := initial_world (FileJson sample_store) in
  let r := run readonly_env (handleJiraIssueUpdate updated_issue) w in
  emitted r.2 = [JiraSyncError "PROJ-9" (Rejected "EACCES: permission denied")] /\
  tasks_file r.2 = FileJson sample_store /\
  file_writes r.2 = [].
Proof.
  destruct (reverse_sync_outcome readonly_env (initial_world (FileJson sample_store))
              updated_issue (IdStr "1"))
    as (_ & _ & _ & _ & _ & _ & H);
    [reflexivity | apply not_elem_of_empty | reflexivity |].
  apply (H sample_store 0%nat (Rejected "EACCES: permission denied")); reflexivity.
Defined.

Lemma strict_ne_same (s : string) : strict_ne s (Some s) = false.
Proof. unfold strict_ne. now rewrite String.eqb_refl. Qed.

Lemma task_ext (a b : Task.t) :
  Task.id a = Task.id b -> Task.title a = Task.title b ->
  Task.summary a = Task.summary b -> Task.description a = Task.description b ->
  Task.details a = Task.details b -> Task.status a = Task.status b ->
  Task.priority a = Task.priority b -> Task.type a = Task.type b ->
  Task.tags a = Task.tags b -> Task.extra a = Task.extra b ->
  a = b.
Proof. destruct a, b. cbn. congruence. Qed.

(** A guarded assignment that has been made is not made again. *)
Lemma guarded_assignment_twice (v : option string) (f : string -> string)
    (field : option string) :
  let assign field :=
    match v with
    | Some s => if Js.truthy s && strict_ne (f s) field then Some (f s) else field
    | None => field
    end in
  assign (assign field) = assign field.
Proof.
  cbv zeta. destruct v as [s|]; [|reflexivity].
  destruct (Js.truthy s); [|reflexivity]. cbn [andb].
  destruct (strict_ne (f s) field) eqn:Hne; [|now rewrite Hne].
  now rewrite strict_ne_same.
Qed.

Lemma merge_issue_twice (issueData : Issue.t) (task : Task.t) :
  merge_issue issueData (merge_issue issueData task) = merge_issue issueData task.
Proof.
  pose proof (merge_issue_fields issueData task) as (A1 & A2 & A3 & A4).
  pose proof (merge_issue_fields issueData (merge_issue issueData task))
    as (B1 & B2 & B3 & B4).
  pose proof (merge_issue_rest issueData (merge_issue issueData task))
    as (R1 & R2 & R3 & R4 & R5 & R6).
  cbv zeta in *.
  apply task_ext; trivial.
  - rewrite B1, A1.
    apply (guarded_assignment_twice (issue_summary issueData) (fun s => s)).
  - rewrite B2, A2.
    apply (guarded_assignment_twice (issue_description issueData) (fun s => s)).
  - rewrite B3, A3.
    apply (guarded_assignment_twice (issue_status_name issueData)
             mapJiraStatusToTaskStatus).
  - rewrite B4, A4.
    apply (guarded_assignment_twice (issue_priority_name issueData)
             mapJiraPriorityToTaskPriority).
Qed.

Lemma findIndex_insert {A} (f : A -> bool) (l : list A) (i : nat) (x : A) :
  findIndex f l = Some i -> f x = true -> findIndex f (<[i:=x]> l) = Some i.
Proof.
  revert i. induction l as [|y l IH]; intros i; simpl; [discriminate|].
  destruct (f y) eqn:Hy.
  - intros [= <-] Hx. simpl. now rewrite Hx.
  - destruct (findIndex f l) as [j|] eqn:Hj; simpl; [|discriminate].
    intros [= <-] Hx. simpl. rewrite Hy. now rewrite (IH j eq_refl Hx).
Qed.

Lemma store_task_same (i : nat) (task : Task.t) (d : Store.t) :
  masterTasks d !! i = Some task -> store_task i task d = d.
Proof.
  unfold masterTasks, master_tasks, store_task.
  destruct d as [[[[l|] mx]|] [top|] meta others]; cbn;
    intros H; try discriminate H;
    pose proof (list_insert_id _ _ _ H) as Hsame;
    first [now rewrite Hsame | unfold insert in Hsame; now rewrite Hsame].
Qed.

(** X18. Reverse sync is idempotent on the task and not on the file.  The
    four guarded assignments, made a second time from the same issue,
    change nothing.  So when an issue is synced back twice in a row (task
    found, writes succeeding), the second run leaves every task of the
    store as the first run wrote it; yet it writes [tasks.json] again, and
    the store it writes differs from the first one in [metadata.updated],
    the time of the second write. *)
Theorem reverse_sync_twice (env : Env) (w : World) (d : Store.t)
    (issueData : Issue.t) (taskId : task_id) (i : nat) :
  tasks_file w = FileJson d ->
  (forall file d', write_error env file d' = None) ->
  findIndex (same_id taskId) (masterTasks d) = Some i ->
  let w1 := (run env (updateTaskMasterTask taskId issueData) w).2 in
  let w2 := (run env (updateTaskMasterTask taskId issueData) w1).2 in
  (forall task,
     merge_issue issueData (merge_issue issueData task) = merge_issue issueData task) /\
  exists d1,
    tasks_file w1 = FileJson d1 /\
    tasks_file w2
    = FileJson (touch_metadata (now env (S (length (file_writes w)))) d1) /\
    file_writes w2
    = file_writes w
      ++ [d1; touch_metadata (now env (S (length (file_writes w)))) d1].
Proof.
  intros Hfile Hwrite Hidx. cbv zeta.
  split; [intros task; apply merge_issue_twice|].
  destruct (findIndex_lookup _ _ _ Hidx) as (task & Hlook & Hsame).
  set (task' := merge_issue issueData task).
  set (d1 := touch_metadata (now env (length (file_writes w))) (store_task i task' d)).
  exists d1.
  rewrite (updateTaskMasterTask_found env taskId issueData w d i task Hfile
             (Hwrite _) Hidx Hlook).
  cbn [snd]. fold task'. fold d1.
  assert (Hm : masterTasks d1 = <[i:=task']> (masterTasks d)).
  { unfold d1. now rewrite masterTasks_touch, masterTasks_store_task. }
  assert (Hlt : (i < length (masterTasks d))%nat)
    by (eapply lookup_lt_Some; exact Hlook).
  assert (Hsame' : same_id taskId task' = true).
  { unfold same_id, task'.
    destruct (merge_issue_rest issueData task) as (-> & _). exact Hsame. }
  assert (Hidx1 : findIndex (same_id taskId) (masterTasks d1) = Some i).
  { rewrite Hm. now apply findIndex_insert. }
  assert (Hlook1 : masterTasks d1 !! i = Some task').
  { rewrite Hm. now apply list_lookup_insert_eq. }
  match goal with
  | |- context [run env _ ?w1] =>
      rewrite (updateTaskMasterTask_found env taskId issueData w1 d1 i task'
                 eq_refl (Hwrite _) Hidx1 Hlook1)
  end.
  cbn [snd tasks_file file_writes].
  unfold task'. rewrite merge_issue_twice. fold task'.
  rewrite (store_task_same i task' d1 Hlook1).
  rewrite length_app, Nat.add_1_r, <- app_assoc.
  now repeat split.
Qed.

(** The issue of the reverse-sync scenario, synced back twice. *)
Lemma reverse_sync_twice_witness :
  let w := initial_world (FileJson sample_store) in
  let w1 := (run counting_env (updateTaskMasterTask (IdStr "1") updated_issue) w).2 in
  let w2 := (run counting_env (updateTaskMasterTask (IdStr "1") updated_issue) w1).2 in
  exists d1,
    tasks_file w1 = FileJson d1 /\
    tasks_file w2 = FileJson (touch_metadata ("write " +:+ Js.show_nat 1) d1) /\
    file_writes w2 = [d1; touch_metadata ("write " +:+ Js.show_nat 1) d1].
Proof.
  destruct (reverse_sync_twice counting_env (initial_world (FileJson sample_store))
              sample_store updated_issue (IdStr "1") 0) as [_ H];
    [reflexivity | reflexivity | reflexivity |].
  exact H.
Defined.
